(** * XAI_module: retrieval, rule-based reasoning and the explanation pipeline

    A shallow embedding of the Python package [xai_module]
    ([tfidf_extractor.py], [rule_reasoner.py], [llm_adapter.py],
    [xai_pipeline.py]) together with the properties its specification
    states about it.

    Conventions of the embedding.
    - A Python [str] is a Rocq [string]; a character stands for the
      code point of the same number (code points below 256).  The string
      methods used by the source ([strip], [lower], [rstrip], slicing) are
      written out with CPython's behaviour on these code points.
    - A Python [int] is a [Z]; list slicing [l[:k]] follows Python for
      every integer [k], negative ones included.
    - A similarity score is a finite binary64 number.  The source only
      compares scores (with [0] and with each other inside [argsort]), and
      comparison of finite floats is comparison of the rationals they
      denote, so scores are elements of [Q].
    - Raising is explicit: a computation yields [Ok v] or [Raise e].
      Code that prints or reads the process environment runs in [IO],
      which threads a [World] (environment variables and standard output).
    - scikit-learn, NumPy, [requests] and the builtin [repr] are not part
      of the package; they are operations of the classes [Sklearn],
      [Numpy], [Requests] and [Builtins], whose documented contracts
      are stated separately as [sklearn_spec] and [numpy_spec]. *)

From Stdlib Require Import ZArith QArith String Ascii List DecimalString.
From Stdlib Require Import Sorting.Sorted Sorting.Permutation.
From stdpp Require Import base tactics option list sorting strings gmap.

Local Open Scope string_scope.
Local Open Scope nat_scope.

(** ** Python strings *)

Module Str.

(** [str.isspace] on one character: code points 9-13, 28-32, 133, 160. *)
Definition isspace (c : ascii) : bool :=
  let n := nat_of_ascii c in
  (((9 <=? n) && (n <=? 13)) || ((28 <=? n) && (n <=? 32))
   || (n =? 133) || (n =? 160))%nat.

(** [str.lower] on one character: A-Z and the capital letters
    192-214, 216-222 move up by 32; every other character is kept. *)
Definition lower_char (c : ascii) : ascii :=
  let n := nat_of_ascii c in
  if (((65 <=? n) && (n <=? 90)) || ((192 <=? n) && (n <=? 214))
      || ((216 <=? n) && (n <=? 222)))%nat
  then ascii_of_nat (n + 32) else c.

Fixpoint lower (s : string) : string :=
  match s with
  | EmptyString => EmptyString
  | String c s' => String (lower_char c) (lower s')
  end.

(** [s.lstrip(chars)] / [s.rstrip(chars)], the character set given as a
    predicate. *)
Fixpoint lstrip_by (p : ascii → bool) (s : string) : string :=
  match s with
  | EmptyString => EmptyString
  | String c s' => if p c then lstrip_by p s' else s
  end.

Fixpoint rstrip_by (p : ascii → bool) (s : string) : string :=
  match s with
  | EmptyString => EmptyString
  | String c s' =>
      match rstrip_by p s' with
      | EmptyString => if p c then EmptyString else String c EmptyString
      | r => String c r
      end
  end.

(** [s.strip()]: surrounding whitespace removed. *)
Definition strip (s : string) : string :=
  rstrip_by isspace (lstrip_by isspace s).

(** [s.rstrip('/')]. *)
Definition rstrip_slash (s : string) : string :=
  rstrip_by (λ c, Ascii.eqb c "/"%char) s.

(** Truth value of a string: non-empty. *)
Definition truthy (s : string) : bool :=
  match s with EmptyString => false | String _ _ => true end.

(** [s[:n]] for a non-negative literal [n]. *)
Fixpoint take (n : nat) (s : string) : string :=
  match n, s with
  | S n', String c s' => String c (take n' s')
  | _, _ => EmptyString
  end.

(** Every character is whitespace ([s] may be empty). *)
Fixpoint blank (s : string) : bool :=
  match s with
  | EmptyString => true
  | String c s' => isspace c && blank s'
  end.

(** [t] occurs in [s] as a contiguous substring. *)
Definition contains (s t : string) : Prop :=
  ∃ pre post, s = pre +:+ t +:+ post.

(** [str(k)] for an integer. *)
Definition of_Z (k : Z) : string := NilZero.string_of_int (Z.to_int k).

Definition newline : string := String (ascii_of_nat 10) EmptyString.

End Str.

(** ** Python lists *)

(** [l[:k]]: for [k < 0] the stop index is [max (len l + k) 0]. *)
Definition slice_to {A} (l : list A) (k : Z) : list A :=
  if (0 <=? k)%Z then take (Z.to_nat k) l
  else take (length l - Z.to_nat (- k)) l.

(** ** Exceptions, results and the IO monad *)

(** The classes of [Exception] instances the package raises or tells
    apart in an [except] clause; [RequestException] stands for
    [requests.exceptions.RequestException] and its subclasses,
    [OtherException] for any further subclass of [Exception]. *)
Inductive exc_class : Type :=
  | ValueError
  | RuntimeError
  | IndexError
  | KeyError
  | TypeError
  | RequestException
  | OtherException (name : string).

(** An instance of [Exception]: its class and [str(e)]. *)
Record Exception : Type := mkException {
  exc_type : exc_class;
  exc_str : string
}.

Definition is_ValueError (e : Exception) : bool :=
  match exc_type e with ValueError => true | _ => false end.
Definition is_RuntimeError (e : Exception) : bool :=
  match exc_type e with RuntimeError => true | _ => false end.
Definition is_RequestException (e : Exception) : bool :=
  match exc_type e with RequestException => true | _ => false end.

Inductive result (A : Type) : Type :=
  | Ok (a : A)
  | Raise (e : Exception).
Arguments Ok {A} a.
Arguments Raise {A} e.

Module Result.
Definition bind {A B} (m : result A) (k : A → result B) : result B :=
  match m with Ok a => k a | Raise e => Raise e end.

(** [try: body  except <classes> as e: handler e]; an exception outside
    [classes] passes through. *)
Definition try_except {A} (body : result A) (classes : Exception → bool)
    (handler : Exception → result A) : result A :=
  match body with
  | Ok a => Ok a
  | Raise e => if classes e then handler e else Raise e
  end.
End Result.

(** The part of the process state the package touches. *)
Record World : Type := mkWorld {
  environ : gmap string string;   (* os.environ *)
  stdout : list string            (* lines printed so far, oldest first *)
}.

Definition IO (A : Type) : Type := World → result A * World.

Module IO.
Definition ret {A} (a : A) : IO A := λ w, (Ok a, w).
Definition raise {A} (e : Exception) : IO A := λ w, (Raise e, w).
Definition lift {A} (r : result A) : IO A := λ w, (r, w).
Definition bind {A B} (m : IO A) (k : A → IO B) : IO B :=
  λ w, match m w with
       | (Ok a, w') => k a w'
       | (Raise e, w') => (Raise e, w')
       end.
Definition try_except {A} (body : IO A) (classes : Exception → bool)
    (handler : Exception → IO A) : IO A :=
  λ w, match body w with
       | (Ok a, w') => (Ok a, w')
       | (Raise e, w') => if classes e then handler e w' else (Raise e, w')
       end.
(** [print(line)] *)
Definition print (line : string) : IO unit :=
  λ w, (Ok tt, {| environ := environ w; stdout := stdout w ++ [line] |}).
(** [os.getenv(name)] *)
Definition getenv (name : string) : IO (option string) :=
  λ w, (Ok (environ w !! name), w).
End IO.

Declare Scope io_scope.
Delimit Scope io_scope with io.
Notation "'let*' x := m 'in' k" := (IO.bind m (λ x, k))
  (at level 10, x pattern, m at level 100, k at level 200) : io_scope.

Declare Scope result_scope.
Delimit Scope result_scope with res.
Notation "'let*' x := m 'in' k" := (Result.bind m (λ x, k))
  (at level 10, x pattern, m at level 100, k at level 200) : result_scope.

(** [except Exception]: every instance of [Exception]. *)
Definition any_Exception (e : Exception) : bool := true.

(** ** External libraries *)

(** scikit-learn, as used in lines 37-48 of [tfidf_extractor.py]:
    [TfidfVectorizer(stop_words='english', lowercase=True,
    max_features=1000).fit_transform(all_docs)] followed by
    [cosine_similarity(matrix[0:1], matrix[1:])[0]].  The argument is
    [all_docs] (the question first); the outcome is the row of similarities
    of the question to each document, or the exception the vectorizer
    raised (an empty vocabulary, for instance). *)
Class Sklearn : Type :=
  tfidf_cosine_similarity : list string → result (list Q).

(** [np.argsort(a)]: indices that sort [a] in ascending order. *)
Class Numpy : Type :=
  argsort : list Q → list nat.

(** The builtin [repr] on strings, used when a dict is formatted. *)
Class Builtins : Type :=
  repr_str : string → string.

(** What scikit-learn guarantees about the row of similarities: one score
    per document, no score below zero (TF-IDF weights are non-negative),
    and a question without any token has a zero vector. *)
Record sklearn_spec `{!Sklearn} : Prop := {
  similarity_length : ∀ q docs sims,
    tfidf_cosine_similarity (q :: docs) = Ok sims → length sims = length docs;
  similarity_nonneg : ∀ q docs sims i s,
    tfidf_cosine_similarity (q :: docs) = Ok sims → sims !! i = Some s →
    (0 <= s)%Q;
  similarity_blank : ∀ q docs sims i s,
    Str.blank q = true →
    tfidf_cosine_similarity (q :: docs) = Ok sims → sims !! i = Some s →
    (s == 0)%Q
}.

(** What NumPy guarantees about [argsort]: a permutation of the indices
    along which the values ascend.  The order among equal values is left
    open, as it is for NumPy's default sort. *)
Record numpy_spec `{!Numpy} : Prop := {
  argsort_perm : ∀ a, argsort a ≡ₚ seq 0 (length a);
  argsort_ascending : ∀ a,
    StronglySorted
      (λ i j, ∀ x y, a !! i = Some x → a !! j = Some y → (x <= y)%Q)
      (argsort a)
}.

(** ** tfidf_extractor.py *)

(** [xs[i]] for an index produced by [argsort]. *)
Definition getitem {A} (xs : list A) (i : nat) : result A :=
  match xs !! i with
  | Some x => Ok x
  | None => Raise (mkException IndexError "index out of range")
  end.

(** [similarities[i] > 0] *)
Definition positive (s : Q) : bool := negb (Qle_bool s 0).

(** [[lecture_docs[i] for i in top_indices if similarities[i] > 0]] *)
Fixpoint relevant_snippets (lecture_docs : list string) (similarities : list Q)
    (top_indices : list nat) : result (list string) :=
  match top_indices with
  | [] => Ok []
  | i :: rest =>
      (let* s := getitem similarities i in
       if positive s then
         let* d := getitem lecture_docs i in
         let* tl := relevant_snippets lecture_docs similarities rest in
         Ok (d :: tl)
       else relevant_snippets lecture_docs similarities rest)%res
  end.

(** The body of the [try] block (lines 41-60). *)
Definition score_and_select `{!Sklearn, !Numpy} (question_text : string)
    (lecture_docs : list string) (top_k : Z) : result (list string) :=
  let all_docs := question_text :: lecture_docs in
  (let* similarities := tfidf_cosine_similarity all_docs in
   let top_indices := slice_to (reverse (argsort similarities)) top_k in
   let* snippets := relevant_snippets lecture_docs similarities top_indices in
   match snippets with
   | [] => Ok (slice_to lecture_docs top_k)
   | _ => Ok snippets
   end)%res.

Definition get_relevant_snippet `{!Sklearn, !Numpy} (question_text : string)
    (lecture_docs : list string) (top_k : Z) : IO (list string) :=
  match lecture_docs with
  | [] => IO.ret []
  | _ =>
      if negb (Str.truthy (Str.strip question_text))
      then IO.ret (slice_to lecture_docs top_k)
      else
        IO.try_except
          (IO.lift (score_and_select question_text lecture_docs top_k))
          any_Exception
          (λ e,
            let* _ := IO.print ("Warning: TF-IDF extraction failed: "
                                +:+ exc_str e +:+ ". Returning first "
                                +:+ Str.of_Z top_k +:+ " documents.") in
            IO.ret (slice_to lecture_docs top_k))%io
  end.

(** ** rule_reasoner.py *)

(** The dict returned by [reason_mcq]. *)
Record ReasoningRecord : Type := mkReasoning {
  status : string;
  explanation_hint : string;
  review_topic : string
}.

Definition correct_hint : string :=
  "Your answer is correct! You have a good understanding of this concept.".
Definition correct_review : string :=
  "You have mastered this topic. Consider reviewing related advanced concepts.".
Definition incorrect_hint : string :=
  "Your answer is incorrect. The selected option appears to be related to a different "
  +:+ "concept than what the question is focusing on. Please review the lecture material "
  +:+ "related to this topic.".
Definition generic_review : string :=
  "You should review the lecture section mentioned in the evidence. "
  +:+ "Pay special attention to the key concepts and definitions related to this question.".
Definition evidence_review (evidence : string) : string :=
  "You should review the lecture section mentioned in the evidence: "
  +:+ Str.take 100 evidence +:+ "... (if applicable). "
  +:+ "Focus on understanding the key concepts and their relationships.".

Definition reason_mcq (question student_answer correct_answer evidence : string)
    : ReasoningRecord :=
  let student_normalized := Str.lower (Str.strip student_answer) in
  let correct_normalized := Str.lower (Str.strip correct_answer) in
  let is_correct := String.eqb student_normalized correct_normalized in
  if is_correct then
    {| status := "correct";
       explanation_hint := correct_hint;
       review_topic := correct_review |}
  else
    let explanation_hint := incorrect_hint in
    let review_topic := generic_review in
    let review_topic :=
      if Str.truthy evidence then evidence_review evidence else review_topic in
    {| status := "incorrect";
       explanation_hint := explanation_hint;
       review_topic := review_topic |}.

(** ** llm_adapter.py *)

(** The JSON body sent to the provider. *)
Record Payload : Type := mkPayload {
  model : string;
  messages : list (string * string);   (* role, content *)
  temperature : Q;
  max_tokens : Z
}.

(** The decoded JSON body of a response, recorded by what the expressions
    of [generate] evaluate to on it.  [choices] is [None] when the test
    ["choices" in data] is false, [Some []] when it is true and
    [len(data["choices"])] is [0], and otherwise a list whose first element
    is the outcome of evaluating [data["choices"][0]["message"]["content"]]
    (the text, or the lookup error of an element of another shape; the
    further elements, which [generate] never reads, likewise).  [data_repr]
    is what formatting the body into a message gives.  A body on which the
    test ["choices" in data and len(data["choices"]) > 0] itself raises (a
    body that is [null] or a number admits no membership test, a [choices]
    value may have no length) is not recorded as a [ResponseData]: the
    [TypeError] of the test is the outcome [json] of the response below. *)
Record ResponseData : Type := mkResponseData {
  choices : option (list (result string));
  data_repr : string
}.

(** A [requests.Response]: what [raise_for_status()] and [json()] do.
    [json] is the decoded body as [generate] sees it: the exception
    [resp.json()] raised, the [TypeError] of the test on a body that
    admits no such test, or the [ResponseData] of the body. *)
Record Response : Type := mkResponse {
  raise_for_status : result unit;
  json : result ResponseData
}.

(** [requests.post(url, json=payload, headers=headers, timeout=timeout)] *)
Class Requests : Type :=
  requests_post : string → Payload → list (string * string) → Z →
                  result Response.

(** The capability every provider offers: [generate(system_prompt,
    user_prompt)].  A client handed to the pipeline is any object with
    this method. *)
Record LLMClient : Type := mkClient {
  generate : string → string → IO string
}.

Record DeepSeekClient : Type := mkDeepSeek {
  ds_api_key : string;
  ds_base_url : string
}.

(** [a or b] on optional strings: [a] when it is a non-empty string. *)
Definition or_else (a b : option string) : option string :=
  match a with
  | Some s => if Str.truthy s then a else b
  | None => b
  end.

Definition deepseek_default_url : string := "https://api.deepseek.com".

(** [DeepSeekClient.__init__] *)
Definition DeepSeekClient_init (api_key : option string) (base_url : string)
    : IO DeepSeekClient :=
  (let* env_key := IO.getenv "DEEPSEEK_API_KEY" in
   let self_api_key := or_else api_key env_key in
   let self_base_url := Str.rstrip_slash base_url in
   match self_api_key with
   | Some k =>
       if Str.truthy k then IO.ret (mkDeepSeek k self_base_url)
       else IO.raise (mkException ValueError
              ("DeepSeek API key not provided. Set DEEPSEEK_API_KEY environment variable "
               +:+ "or pass api_key to constructor."))
   | None =>
       IO.raise (mkException ValueError
         ("DeepSeek API key not provided. Set DEEPSEEK_API_KEY environment variable "
          +:+ "or pass api_key to constructor."))
   end)%io.

(** [DeepSeekClient.generate] *)
Definition DeepSeekClient_generate `{!Requests} (self : DeepSeekClient)
    (system_prompt user_prompt : string) : IO string :=
  let url := ds_base_url self +:+ "/chat/completions" in
  let headers := [("Authorization", "Bearer " +:+ ds_api_key self);
                  ("Content-Type", "application/json")] in
  let payload := {| model := "deepseek-chat";
                    messages := [("system", system_prompt);
                                 ("user", user_prompt)];
                    temperature := 7 # 10;
                    max_tokens := 500 |} in
  IO.lift
    (Result.try_except
       (let* resp := requests_post url payload headers 30 in
        let* _ := raise_for_status resp in
        let* data := json resp in
        match choices data with
        | Some (first :: _) => first
        | _ => Raise (mkException ValueError
                 ("Unexpected API response structure: " +:+ data_repr data))
        end)%res
       is_RequestException
       (λ e, Raise (mkException RuntimeError
                      ("Failed to call DeepSeek API: " +:+ exc_str e)))).

Record OpenAIClient : Type := mkOpenAI {
  oa_api_key : string;
  oa_base_url : string
}.

Definition openai_default_url : string := "https://api.openai.com/v1".

(** [OpenAIClient.__init__] *)
Definition OpenAIClient_init (api_key : option string) (base_url : string)
    : IO OpenAIClient :=
  (let* env_key := IO.getenv "OPENAI_API_KEY" in
   let self_api_key := or_else api_key env_key in
   let self_base_url := Str.rstrip_slash base_url in
   match self_api_key with
   | Some k =>
       if Str.truthy k then IO.ret (mkOpenAI k self_base_url)
       else IO.raise (mkException ValueError
              ("OpenAI API key not provided. Set OPENAI_API_KEY environment variable "
               +:+ "or pass api_key to constructor."))
   | None =>
       IO.raise (mkException ValueError
         ("OpenAI API key not provided. Set OPENAI_API_KEY environment variable "
          +:+ "or pass api_key to constructor."))
   end)%io.

Definition openai_placeholder : string :=
  "OpenAI client not yet implemented. Please use DeepSeekClient for now.".

(** [OpenAIClient.generate]: the body is the single [return] statement. *)
Definition OpenAIClient_generate (self : OpenAIClient)
    (system_prompt user_prompt : string) : IO string :=
  IO.ret openai_placeholder.

(** The two providers as clients of the pipeline. *)
Definition deepseek_client `{!Requests} (self : DeepSeekClient) : LLMClient :=
  {| generate := DeepSeekClient_generate self |}.
Definition openai_client (self : OpenAIClient) : LLMClient :=
  {| generate := OpenAIClient_generate self |}.

(** ** xai_pipeline.py *)

(** The dict returned by [run_xai]. *)
Record PipelineResult : Type := mkResult {
  res_status : string;
  res_explanation : string;
  res_evidence : string;
  res_review_topic : string
}.

Definition system_prompt : string :=
  "You are an Explainable AI assistant for a university MCQ system. "
  +:+ "You must explain answers in simple, clear terms that help students understand "
  +:+ "both why their answer is correct or incorrect and what concepts they should review. "
  +:+ "Keep explanations concise (3-6 sentences) and educational.".

(** [f"{reasoning}"]: the dict formatted with [repr] of its values. *)
Definition format_reasoning `{!Builtins} (reasoning : ReasoningRecord) : string :=
  "{'status': " +:+ repr_str (status reasoning)
  +:+ ", 'explanation_hint': " +:+ repr_str (explanation_hint reasoning)
  +:+ ", 'review_topic': " +:+ repr_str (review_topic reasoning) +:+ "}".

Definition user_prompt `{!Builtins} (question student_answer correct_answer
    evidence : string) (reasoning : ReasoningRecord) : string :=
  Str.newline +:+ "Question: " +:+ question +:+ Str.newline
  +:+ Str.newline +:+ "Student answer: " +:+ student_answer +:+ Str.newline
  +:+ Str.newline +:+ "Correct answer: " +:+ correct_answer +:+ Str.newline
  +:+ Str.newline +:+ "Evidence from lecture: " +:+ evidence +:+ Str.newline
  +:+ Str.newline +:+ "Internal reasoning: " +:+ format_reasoning reasoning
  +:+ Str.newline
  +:+ Str.newline
  +:+ "Write a short explanation (3-6 sentences) for the student. Start with whether they are correct or not, "
  +:+ Str.newline
  +:+ "then mention the related topic and key concepts they should understand."
  +:+ Str.newline.

(** [evidence_list[0] if evidence_list else ""] *)
Definition first_or_empty (evidence_list : list string) : string :=
  match evidence_list with
  | e :: _ => e
  | [] => ""
  end.

(** Lines 69-105: prompts, the guarded call of [generate], the result. *)
Definition verbalize `{!Builtins} (llm_client : LLMClient)
    (question student_answer correct_answer evidence : string)
    (reasoning : ReasoningRecord) : IO PipelineResult :=
  (let* llm_text :=
     IO.try_except
       (generate llm_client system_prompt
          (user_prompt question student_answer correct_answer evidence reasoning))
       any_Exception
       (λ e,
         let* _ := IO.print ("Warning: LLM generation failed: " +:+ exc_str e
                             +:+ ". Using rule-based explanation.") in
         IO.ret (explanation_hint reasoning)) in
   IO.ret {| res_status := status reasoning;
             res_explanation := llm_text;
             res_evidence := evidence;
             res_review_topic := review_topic reasoning |})%io.

Definition run_xai `{!Sklearn, !Numpy, !Requests, !Builtins}
    (question student_answer correct_answer : string)
    (lecture_docs : list string) (llm_client : option LLMClient)
    : IO PipelineResult :=
  (let* evidence_list := get_relevant_snippet question lecture_docs 1 in
   let evidence := first_or_empty evidence_list in
   let reasoning := reason_mcq question student_answer correct_answer evidence in
   match llm_client with
   | Some client =>
       verbalize client question student_answer correct_answer evidence reasoning
   | None =>
       (* [llm_client = DeepSeekClient()], guarded by
          [except (ValueError, RuntimeError)]; the handler returns. *)
       let* made :=
         IO.try_except
           (let* c := DeepSeekClient_init None deepseek_default_url in
            IO.ret (inl (deepseek_client c)))
           (λ e, is_ValueError e || is_RuntimeError e)
           (λ e,
             let* _ := IO.print ("Warning: LLM client initialization failed: "
                                 +:+ exc_str e
                                 +:+ ". Using rule-based explanation.") in
             IO.ret (inr {| res_status := status reasoning;
                            res_explanation := explanation_hint reasoning;
                            res_evidence := evidence;
                            res_review_topic := review_topic reasoning |})) in
       match made with
       | inl client =>
           verbalize client question student_answer correct_answer evidence
             reasoning
       | inr early => IO.ret early
       end
   end)%io.

(** ** Notions used to state the properties *)

(** [similarity q D i s]: the scoring of question [q] against the documents
    [D] succeeds and gives document number [i] the score [s]. *)
Definition similarity `{!Sklearn} (q : string) (D : list string) (i : nat)
    (s : Q) : Prop :=
  ∃ sims, tfidf_cosine_similarity (q :: D) = Ok sims ∧ sims !! i = Some s.

(** [docs] are the documents of [D] at the positions [idxs], in order. *)
Definition drawn_from (D : list string) (idxs : list nat) (docs : list string)
    : Prop :=
  Forall2 (λ i d, D !! i = Some d) idxs docs.

(** Document number [i] is at least as similar to [q] as number [j]. *)
Definition at_least_as_similar `{!Sklearn} (q : string) (D : list string)
    (i j : nat) : Prop :=
  ∀ si sj, similarity q D i si → similarity q D j sj → (sj <= si)%Q.

(** Whether the index [i] passes the test [similarities[i] > 0]. *)
Definition passes (similarities : list Q) (i : nat) : bool :=
  match similarities !! i with
  | Some s => positive s
  | None => false
  end.

(** The result the pipeline builds from the reasoning record alone. *)
Definition rule_based_result (reasoning : ReasoningRecord) (evidence : string)
    : PipelineResult :=
  {| res_status := status reasoning;
     res_explanation := explanation_hint reasoning;
     res_evidence := evidence;
     res_review_topic := review_topic reasoning |}.

(** The world after one more printed line. *)
Definition printed (w : World) (line : string) : World :=
  {| environ := environ w; stdout := stdout w ++ [line] |}.

(** ** Test doubles and reference instances of the external libraries *)

Module Stub.

(** A client whose [generate] raises [e]. *)
Definition raising_client (e : Exception) : LLMClient :=
  {| generate := λ _ _, IO.raise e |}.

(** A client whose [generate] returns the fixed text [t]. *)
Definition fixed_client (t : string) : LLMClient :=
  {| generate := λ _ _, IO.ret t |}.

(** Number of words of the question that occur in the document. *)
Definition shared_words (q d : string) : nat :=
  length (filter (λ w, w ∈ String.words (Str.lower d))
                 (String.words (Str.lower q))).

(** A scorer with the shape of the TF-IDF one: word overlap. *)
Definition word_overlap : Sklearn :=
  λ all_docs,
    match all_docs with
    | [] => Raise (mkException ValueError "empty vocabulary")
    | q :: docs =>
        if Str.blank q then Ok ((λ _, 0%Q) <$> docs)
        else Ok ((λ d, inject_Z (Z.of_nat (shared_words q d))) <$> docs)
    end.

(** A scorer that always fails. *)
Definition failing_scorer : Sklearn :=
  λ _, Raise (mkException ValueError "empty vocabulary").

Definition value (a : list Q) (i : nat) : Q := default 0%Q (a !! i).

Definition le_at (a : list Q) : relation nat :=
  λ i j, (value a i <= value a j)%Q.

Definition le_at_dec (a : list Q) (i j : nat) : Decision (le_at a i j) :=
  match Qlt_le_dec (value a j) (value a i) with
  | left H => right (Qlt_not_le _ _ H)
  | right H => left H
  end.

(** An [argsort] by merge sort (the order NumPy's [kind='stable'] gives). *)
Definition stable_argsort : Numpy :=
  λ a, @merge_sort nat (le_at a) (le_at_dec a) (seq 0 (length a)).

(** A network that is down. *)
Definition offline : Requests :=
  λ _ _ _ _, Raise (mkException RequestException "connection refused").

(** [repr] of a string without characters that need escaping. *)
Definition quote : Builtins := λ s, "'" +:+ s +:+ "'".

(** Sample lecture notes and a sample question. *)
Definition week3 : string :=
  "Week 3: TF-IDF measures how important a word is in a document".
Definition week5 : string :=
  "Week 5: Explainable AI aims to provide transparency".
Definition week7 : string :=
  "Week 7: Text mining involves extracting useful information from text".
Definition lectures : list string := [week3; week5; week7].
Definition question : string := "What is text mining".

Definition empty_world : World := {| environ := ∅; stdout := [] |}.

End Stub.

(** ** Messages and counts used to state further properties *)

(** The line [get_relevant_snippet] prints when the scoring step fails. *)
Definition tfidf_warning (e : Exception) (k : Z) : string :=
  "Warning: TF-IDF extraction failed: " +:+ exc_str e
  +:+ ". Returning first " +:+ Str.of_Z k +:+ " documents.".

(** The one request [DeepSeekClient.generate] sends. *)
Definition deepseek_request `{!Requests} (self : DeepSeekClient)
    (system_prompt user_prompt : string) : result Response :=
  requests_post (ds_base_url self +:+ "/chat/completions")
    {| model := "deepseek-chat";
       messages := [("system", system_prompt); ("user", user_prompt)];
       temperature := 7 # 10;
       max_tokens := 500 |}
    [("Authorization", "Bearer " +:+ ds_api_key self);
     ("Content-Type", "application/json")]
    30.

(** The request the default provider sends during a run of the pipeline
    that retrieved the evidence [ev], with the credential [key]. *)
Definition default_request `{!Requests, !Builtins}
    (question student_answer correct_answer ev key : string)
    : result Response :=
  deepseek_request (mkDeepSeek key "https://api.deepseek.com") system_prompt
    (user_prompt question student_answer correct_answer ev
       (reason_mcq question student_answer correct_answer ev)).

(** The line [run_xai] prints when [generate] fails. *)
Definition generation_warning (e : Exception) : string :=
  "Warning: LLM generation failed: " +:+ exc_str e
  +:+ ". Using rule-based explanation.".

(** ** app_demo.py *)

(** [open(path, "r", encoding="utf-8")] followed by [f.read()]: the text
    of the file, or the exception raised on the way. *)
Class FileSystem : Type :=
  read_text : string → result string.

(** [except FileNotFoundError] *)
Definition is_FileNotFoundError (e : Exception) : bool :=
  match exc_type e with
  | OtherException name => String.eqb name "FileNotFoundError"
  | _ => false
  end.

Definition is_newline (c : ascii) : bool := Ascii.eqb c (ascii_of_nat 10).

(** [s.split("\n\n")], read from the left; [cur] is the piece in progress. *)
Fixpoint split_blank_line_from (cur s : string) : list string :=
  match s with
  | EmptyString => [cur]
  | String c rest =>
      match rest with
      | String d rest' =>
          if is_newline c && is_newline d
          then cur :: split_blank_line_from "" rest'
          else split_blank_line_from (cur +:+ String c "") rest
      | EmptyString => [cur +:+ String c ""]
      end
  end.

Definition split_blank_line (s : string) : list string :=
  split_blank_line_from "" s.

(** [[doc.strip() for doc in content.split("\n\n") if doc.strip()]] *)
Definition paragraphs (content : string) : list string :=
  Str.strip <$> filter (λ doc, Str.truthy (Str.strip doc))
                       (split_blank_line content).

Definition default_docs : list string :=
  [ "Week 3: TF-IDF (Term Frequency-Inverse Document Frequency) is used to measure "
    +:+ "how important a word is in a document relative to the entire corpus. It helps "
    +:+ "identify keywords that are distinctive to a particular document.";
    "Week 5: Explainable AI (XAI) aims to provide transparency and human-understandable "
    +:+ "reasons for model outputs. It helps users understand why an AI system made a "
    +:+ "particular decision or prediction.";
    "Week 7: Text mining involves extracting useful information from unstructured text data. "
    +:+ "Common techniques include tokenization, stemming, and vectorization methods like TF-IDF." ].

Definition load_lecture_docs `{!FileSystem} : IO (list string) :=
  (let* loaded :=
     IO.try_except
       (let* content := IO.lift (read_text "data/sample_lectures.txt") in
        let docs := paragraphs content in
        match docs with
        | _ :: _ => IO.ret (Some docs)
        | [] => IO.ret None
        end)
       is_FileNotFoundError
       (λ e,
         let* _ := IO.print
           "Note: sample_lectures.txt not found. Using default sample documents." in
         IO.ret None) in
   match loaded with
   | Some docs => IO.ret docs
   | None => IO.ret default_docs
   end)%io.

(** [blank_line.join(ps)] for [blank_line = "\n\n"]: the text of a file
    that holds the paragraphs [ps], separated by blank lines. *)
Fixpoint join_blank_line (ps : list string) : string :=
  match ps with
  | [] => ""
  | p :: rest =>
      match rest with
      | [] => p
      | _ :: _ => p +:+ Str.newline +:+ Str.newline +:+ join_blank_line rest
      end
  end.

(** ** Further test doubles *)

Module Double.

(** A provider that answers every request with one choice. *)
Definition answering (content : string) : Requests :=
  λ _ _ _ _,
    Ok {| raise_for_status := Ok tt;
          json := Ok {| choices := Some [Ok content];
                        data_repr := "{'choices': [...]}" |} |}.

(** A provider whose JSON body has no [choices]. *)
Definition without_choices : Requests :=
  λ _ _ _ _,
    Ok {| raise_for_status := Ok tt;
          json := Ok {| choices := None;
                        data_repr := "{'error': 'quota exceeded'}" |} |}.

(** A provider that answers with an HTTP error status. *)
Definition rejecting : Requests :=
  λ _ _ _ _,
    Ok {| raise_for_status :=
            Raise (mkException RequestException "401 Client Error: Unauthorized");
          json := Ok {| choices := None; data_repr := "{}" |} |}.

(** A process environment that holds a DeepSeek credential. *)
Definition keyed_world : World :=
  {| environ := {[ "DEEPSEEK_API_KEY" := "sk-test" ]}; stdout := [] |}.

Definition missing_file : FileSystem :=
  λ _, Raise (mkException (OtherException "FileNotFoundError")
                "[Errno 2] No such file or directory: 'data/sample_lectures.txt'").

Definition unreadable_file : FileSystem :=
  λ _, Raise (mkException (OtherException "PermissionError")
                "[Errno 13] Permission denied: 'data/sample_lectures.txt'").

Definition file_with (content : string) : FileSystem := λ _, Ok content.

(** A client of the default endpoint. *)
Definition sample_client : DeepSeekClient :=
  mkDeepSeek "sk-test" "https://api.deepseek.com".

(** The paragraphs of a small lecture file. *)
Definition sample_paragraphs : list string :=
  [ "TF-IDF weighs terms."; "Text mining extracts information." ].

(** Two paragraphs separated by a blank line, with stray whitespace. *)
Definition two_paragraphs : string :=
  "  TF-IDF weighs terms. " +:+ Str.newline +:+ Str.newline
  +:+ Str.newline +:+ "Text mining extracts information." +:+ Str.newline.

End Double.


(** * Properties *)

(** ** Facts about Python strings *)

Section str_facts.
Implicit Types (s l r : string) (c : ascii).

Lemma isspace_lower_char c : Str.isspace (Str.lower_char c) = Str.isspace c.
Proof. destruct c as [[] [] [] [] [] [] [] []]; reflexivity. Qed.

Lemma append_assoc s l r : (s +:+ l) +:+ r = s +:+ l +:+ r.
Proof.
  induction s as [|c s IH]; [done|].
  change (String c ((s +:+ l) +:+ r) = String c (s +:+ l +:+ r)).
  by rewrite IH.
Qed.

Lemma blank_app l r :
  Str.blank (l +:+ r) = Str.blank l && Str.blank r.
Proof.
  induction l as [|c l IH]; simpl; [done|].
  rewrite IH. by rewrite andb_assoc.
Qed.

Lemma lstrip_blank_app l s :
  Str.blank l = true →
  Str.lstrip_by Str.isspace (l +:+ s) = Str.lstrip_by Str.isspace s.
Proof.
  induction l as [|c l IH]; simpl; [done|].
  intros [Hc Hl]%andb_true_iff. rewrite Hc. auto.
Qed.

Lemma lstrip_blank s :
  Str.blank s = true → Str.lstrip_by Str.isspace s = "".
Proof.
  induction s as [|c s IH]; simpl; [done|].
  intros [Hc Hs]%andb_true_iff. rewrite Hc. auto.
Qed.

Lemma rstrip_blank s :
  Str.blank s = true → Str.rstrip_by Str.isspace s = "".
Proof.
  induction s as [|c s IH]; simpl; [done|].
  intros [Hc Hs]%andb_true_iff. rewrite IH, Hc; done.
Qed.

Lemma rstrip_app_blank s r :
  Str.blank r = true →
  Str.rstrip_by Str.isspace (s +:+ r) = Str.rstrip_by Str.isspace s.
Proof.
  intros Hr. induction s as [|c s IH]; simpl.
  - by apply rstrip_blank.
  - by rewrite IH.
Qed.

Lemma rstrip_empty_blank s :
  Str.rstrip_by Str.isspace s = "" → Str.blank s = true.
Proof.
  induction s as [|c s IH]; simpl; [done|].
  destruct (Str.rstrip_by Str.isspace s) eqn:E; [|done].
  destruct (Str.isspace c); [|done]. auto.
Qed.

Lemma lstrip_blank_inv s :
  Str.blank (Str.lstrip_by Str.isspace s) = true → Str.blank s = true.
Proof.
  induction s as [|c s IH]; simpl; [done|].
  destruct (Str.isspace c) eqn:E; simpl; [auto|].
  by rewrite E.
Qed.

Lemma lstrip_app_not_blank s r :
  Str.blank s = false →
  Str.lstrip_by Str.isspace (s +:+ r) = Str.lstrip_by Str.isspace s +:+ r.
Proof.
  induction s as [|c s IH]; simpl; [done|].
  destruct (Str.isspace c); simpl; auto.
Qed.

(** [strip] gives the empty string exactly on whitespace-only input. *)
Lemma strip_empty_iff s : Str.strip s = "" ↔ Str.blank s = true.
Proof.
  unfold Str.strip. split.
  - intros H. by apply lstrip_blank_inv, rstrip_empty_blank.
  - intros H. by rewrite lstrip_blank.
Qed.

Lemma truthy_strip s : Str.truthy (Str.strip s) = negb (Str.blank s).
Proof.
  destruct (Str.blank s) eqn:E.
  - apply strip_empty_iff in E. by rewrite E.
  - destruct (Str.strip s) eqn:E'; [|done].
    apply strip_empty_iff in E'. congruence.
Qed.

(** Whitespace around a string does not change what [strip] returns. *)
Lemma strip_surrounded l s r :
  Str.blank l = true → Str.blank r = true →
  Str.strip (l +:+ s +:+ r) = Str.strip s.
Proof.
  intros Hl Hr. unfold Str.strip. rewrite lstrip_blank_app by done.
  destruct (Str.blank s) eqn:Hs.
  - rewrite !lstrip_blank; [done..|]. by rewrite blank_app, Hs, Hr.
  - rewrite lstrip_app_not_blank by done. by apply rstrip_app_blank.
Qed.

Lemma lstrip_lower s :
  Str.lstrip_by Str.isspace (Str.lower s)
  = Str.lower (Str.lstrip_by Str.isspace s).
Proof.
  induction s as [|c s IH]; simpl; [done|].
  rewrite isspace_lower_char. by destruct (Str.isspace c).
Qed.

Lemma rstrip_lower s :
  Str.rstrip_by Str.isspace (Str.lower s)
  = Str.lower (Str.rstrip_by Str.isspace s).
Proof.
  induction s as [|c s IH]; simpl; [done|].
  rewrite IH, isspace_lower_char.
  destruct (Str.rstrip_by Str.isspace s); simpl; [|done].
  by destruct (Str.isspace c).
Qed.

(** Lowercasing and trimming commute. *)
Lemma strip_lower s : Str.strip (Str.lower s) = Str.lower (Str.strip s).
Proof. unfold Str.strip. by rewrite lstrip_lower, rstrip_lower. Qed.

Lemma lower_idemp s : Str.lower (Str.lower s) = Str.lower s.
Proof.
  induction s as [|c s IH]; simpl; [done|]. rewrite IH. f_equal.
  destruct c as [[] [] [] [] [] [] [] []]; reflexivity.
Qed.

Lemma take_split n s : ∃ rest, s = Str.take n s +:+ rest.
Proof.
  revert s. induction n as [|n IH]; intros [|c s]; simpl; eauto.
  destruct (IH s) as [rest Hrest]. exists rest.
  change (String c s = String c (Str.take n s +:+ rest)). by f_equal.
Qed.

Lemma take_length n s :
  String.length (Str.take n s) = Nat.min n (String.length s).
Proof.
  revert s. induction n as [|n IH]; intros [|c s]; simpl; auto.
Qed.

Lemma take_all n s : (String.length s ≤ n)%nat → Str.take n s = s.
Proof.
  revert s. induction n as [|n IH]; intros [|c s]; simpl; try done; try lia.
  intros H. f_equal. apply IH. lia.
Qed.

Lemma truthy_true s : Str.truthy s = true ↔ s ≠ "".
Proof. by destruct s. Qed.

End str_facts.

(** ** rule_reasoner.py *)

Section reasoner.
Implicit Types (q s c e : string).

Lemma reason_mcq_equal q s c e :
  Str.lower (Str.strip s) = Str.lower (Str.strip c) →
  reason_mcq q s c e = mkReasoning "correct" correct_hint correct_review.
Proof.
  intros H. unfold reason_mcq. by rewrite (proj2 (String.eqb_eq _ _) H).
Qed.

Lemma reason_mcq_different q s c e :
  Str.lower (Str.strip s) ≠ Str.lower (Str.strip c) →
  reason_mcq q s c e
  = mkReasoning "incorrect" incorrect_hint
      (if Str.truthy e then evidence_review e else generic_review).
Proof.
  intros H. unfold reason_mcq. by rewrite (proj2 (String.eqb_neq _ _) H).
Qed.

(** The normal form the comparison works on is blind to letter case and
    to whitespace around the answer. *)
Lemma normalized_insensitive s s' l r :
  Str.lower s' = Str.lower s →
  Str.blank l = true → Str.blank r = true →
  Str.lower (Str.strip (l +:+ s' +:+ r)) = Str.lower (Str.strip s).
Proof.
  intros Hcase Hl Hr. rewrite strip_surrounded by done.
  by rewrite <- !strip_lower, Hcase.
Qed.

(** C3. [reason_mcq] returns status "correct" if and only if the student's
    answer and the correct answer are equal after trimming surrounding
    whitespace and lowercasing, and status "incorrect" otherwise.  In
    particular the verdict is insensitive to letter case and to
    surrounding whitespace in either answer, and does not depend on the
    question or the evidence. *)
Theorem reason_mcq_status q s c e :
  (status (reason_mcq q s c e) = "correct"
     ↔ Str.lower (Str.strip s) = Str.lower (Str.strip c))
  ∧ (status (reason_mcq q s c e) = "incorrect"
     ↔ Str.lower (Str.strip s) ≠ Str.lower (Str.strip c))
  ∧ (∀ q' e' s' c' l1 r1 l2 r2,
       Str.lower s' = Str.lower s → Str.lower c' = Str.lower c →
       Str.blank l1 = true → Str.blank r1 = true →
       Str.blank l2 = true → Str.blank r2 = true →
       status (reason_mcq q' (l1 +:+ s' +:+ r1) (l2 +:+ c' +:+ r2) e')
       = status (reason_mcq q s c e)).
Proof.
  split_and!.
  - destruct (decide (Str.lower (Str.strip s) = Str.lower (Str.strip c)))
      as [Heq|Hne].
    + by rewrite reason_mcq_equal.
    + by rewrite reason_mcq_different.
  - destruct (decide (Str.lower (Str.strip s) = Str.lower (Str.strip c)))
      as [Heq|Hne].
    + by rewrite reason_mcq_equal.
    + by rewrite reason_mcq_different.
  - intros q' e' s' c' l1 r1 l2 r2 Hs Hc Hl1 Hr1 Hl2 Hr2.
    pose proof (normalized_insensitive s s' l1 r1 Hs Hl1 Hr1) as Es.
    pose proof (normalized_insensitive c c' l2 r2 Hc Hl2 Hr2) as Ec.
    unfold reason_mcq. rewrite Es, Ec.
    by destruct (String.eqb _ _).
Qed.

(** C3 at the specification's example: "  paris " against "Paris". *)
Lemma reason_mcq_status_witness :
  status (reason_mcq "Capital of France?" "Paris" "Paris" "") = "correct"
  ∧ status (reason_mcq "Capital of France?" "  paris " "Paris" "") = "correct"
  ∧ status (reason_mcq "Capital of France?" "Berlin" "Paris" "") = "incorrect".
Proof.
  destruct (reason_mcq_status "Capital of France?" "Paris" "Paris" "")
    as (Hc & _ & Hinv).
  destruct (reason_mcq_status "Capital of France?" "Berlin" "Paris" "")
    as (_ & Hi & _).
  split_and!.
  - apply Hc. reflexivity.
  - transitivity (status (reason_mcq "Capital of France?" "Paris" "Paris" "")).
    + exact (Hinv "Capital of France?" "" "paris" "Paris" "  " " " "" ""
               eq_refl eq_refl eq_refl eq_refl eq_refl eq_refl).
    + apply Hc. reflexivity.
  - apply Hi. vm_compute. discriminate.
Defined.

(** C6. When the answers differ after normalization: with a non-empty
    evidence text the review topic embeds the first 100 characters of the
    evidence followed by the ellipsis marker "..."; with an empty evidence
    it is the generic instruction, a fixed text without any excerpt. *)
Theorem reason_mcq_review_topic q s c e :
  Str.lower (Str.strip s) ≠ Str.lower (Str.strip c) →
  (e ≠ "" →
     review_topic (reason_mcq q s c e) = evidence_review e
     ∧ Str.contains (review_topic (reason_mcq q s c e))
                    (Str.take 100 e +:+ "...")
     ∧ (∃ rest, e = Str.take 100 e +:+ rest)
     ∧ String.length (Str.take 100 e) = Nat.min 100 (String.length e))
  ∧ (e = "" → review_topic (reason_mcq q s c e) = generic_review).
Proof.
  intros Hne. rewrite reason_mcq_different by done. cbn [review_topic]. split.
  - intros He. apply truthy_true in He. rewrite He. split_and!.
    + done.
    + exists "You should review the lecture section mentioned in the evidence: ",
        " (if applicable). Focus on understanding the key concepts and their relationships.".
      unfold evidence_review. by rewrite append_assoc.
    + apply take_split.
    + apply take_length.
  - by intros ->.
Qed.

(** C6 on a 120-character evidence text and on the empty one. *)
Lemma reason_mcq_review_topic_witness :
  review_topic
    (reason_mcq "Capital of France?" "Berlin" "Paris"
       "0123456789012345678901234567890123456789012345678901234567890123456789012345678901234567890123456789ABCDEFGHIJKLMNOPQRST")
  = "You should review the lecture section mentioned in the evidence: 0123456789012345678901234567890123456789012345678901234567890123456789012345678901234567890123456789... (if applicable). Focus on understanding the key concepts and their relationships."
  ∧ review_topic (reason_mcq "Capital of France?" "Berlin" "Paris" "")
    = generic_review.
Proof.
  assert (Hne : Str.lower (Str.strip "Berlin") ≠ Str.lower (Str.strip "Paris"))
    by (vm_compute; discriminate).
  split.
  - refine (proj1 (proj1 (reason_mcq_review_topic _ _ _ _ Hne) _)).
    discriminate.
  - exact (proj2 (reason_mcq_review_topic _ _ _ _ Hne) eq_refl).
Defined.

(** C10. Two answers made of whitespace only (the empty string included)
    both normalize to the empty string, so the verdict is "correct" with
    the fixed encouraging hint, whatever the question and the evidence. *)
Theorem reason_mcq_blank_answers q s c e :
  Str.blank s = true → Str.blank c = true →
  Str.lower (Str.strip s) = "" ∧ Str.lower (Str.strip c) = ""
  ∧ reason_mcq q s c e = mkReasoning "correct" correct_hint correct_review.
Proof.
  intros Hs%strip_empty_iff Hc%strip_empty_iff.
  rewrite reason_mcq_equal by (by rewrite Hs, Hc).
  by rewrite Hs, Hc.
Qed.

(** C10 on a whitespace-only answer against an empty correct answer, and
    on two empty answers. *)
Lemma reason_mcq_blank_answers_witness :
  reason_mcq "Which one?" "   " "" "some evidence"
  = mkReasoning "correct" correct_hint correct_review
  ∧ reason_mcq "Which one?" "" "" ""
    = mkReasoning "correct" correct_hint correct_review.
Proof.
  split.
  - exact (proj2 (proj2 (reason_mcq_blank_answers
                           "Which one?" "   " "" "some evidence"
                           eq_refl eq_refl))).
  - exact (proj2 (proj2 (reason_mcq_blank_answers
                           "Which one?" "" "" "" eq_refl eq_refl))).
Defined.

End reasoner.

(** ** The retrieval stage never raises *)

Section retrieval_total.
Context `{!Sklearn, !Numpy}.

(** Whatever the scorer does, [get_relevant_snippet] returns a list and
    leaves the environment variables alone: a failure of the scoring
    step only adds a warning line to the output. *)
Lemma get_relevant_snippet_returns q D k w :
  ∃ docs w', get_relevant_snippet q D k w = (Ok docs, w')
             ∧ environ w' = environ w.
Proof.
  unfold get_relevant_snippet. destruct D as [|d D]; [by eexists _, _|].
  destruct (negb _); [by eexists _, _|].
  unfold IO.try_except, IO.lift.
  destruct (score_and_select q (d :: D) k) as [docs|e].
  - by eexists _, _.
  - simpl. by eexists _, _.
Qed.

End retrieval_total.

(** ** xai_pipeline.py and llm_adapter.py *)

Section pipeline.
Context `{!Sklearn, !Numpy, !Requests, !Builtins}.
Implicit Types (q s c : string) (D : list string) (client : LLMClient).

(** With a supplied client, [run_xai] is the retrieval stage followed by
    [verbalize] on the evidence and the reasoning record. *)
Lemma run_xai_supplied q s c D client w evl w1 :
  get_relevant_snippet q D 1 w = (Ok evl, w1) →
  run_xai q s c D (Some client) w
  = verbalize client q s c (first_or_empty evl)
      (reason_mcq q s c (first_or_empty evl)) w1.
Proof. intros Hret. unfold run_xai, IO.bind. by rewrite Hret. Qed.

Lemma verbalize_raise client q s c ev r w e w' :
  generate client system_prompt (user_prompt q s c ev r) w = (Raise e, w') →
  verbalize client q s c ev r w
  = (Ok (rule_based_result r ev),
     printed w' ("Warning: LLM generation failed: " +:+ exc_str e
                 +:+ ". Using rule-based explanation.")).
Proof.
  intros Hgen. unfold verbalize, IO.bind, IO.try_except. by rewrite Hgen.
Qed.

Lemma verbalize_ok client q s c ev r w t w' :
  generate client system_prompt (user_prompt q s c ev r) w = (Ok t, w') →
  verbalize client q s c ev r w
  = (Ok {| res_status := status r; res_explanation := t;
           res_evidence := ev; res_review_topic := review_topic r |}, w').
Proof.
  intros Hgen. unfold verbalize, IO.bind, IO.try_except. by rewrite Hgen.
Qed.

(** Without a resolvable credential the default provider cannot be
    constructed: [DeepSeekClient()] raises [ValueError]. *)
Lemma DeepSeekClient_init_no_credential w :
  environ w !! "DEEPSEEK_API_KEY" = None
  ∨ environ w !! "DEEPSEEK_API_KEY" = Some "" →
  ∃ msg, DeepSeekClient_init None deepseek_default_url w
         = (Raise (mkException ValueError msg), w).
Proof.
  intros Henv. unfold DeepSeekClient_init, IO.bind, IO.getenv.
  destruct Henv as [-> | ->]; by eexists.
Qed.

(** C1. When the supplied client's [generate] raises, whatever the
    exception, [run_xai] does not raise: it returns a result whose
    explanation is the reasoning record's [explanation_hint] and whose
    status, evidence and review topic are those of the retrieval and
    reasoning stages (which themselves always return). *)
Theorem run_xai_generate_raises q s c D client w :
  (∃ evl w1, get_relevant_snippet q D 1 w = (Ok evl, w1))
  ∧ ∀ evl w1 e w2,
      get_relevant_snippet q D 1 w = (Ok evl, w1) →
      let evidence := first_or_empty evl in
      let reasoning := reason_mcq q s c evidence in
      generate client system_prompt
        (user_prompt q s c evidence reasoning) w1 = (Raise e, w2) →
      run_xai q s c D (Some client) w
      = (Ok {| res_status := status reasoning;
               res_explanation := explanation_hint reasoning;
               res_evidence := evidence;
               res_review_topic := review_topic reasoning |},
         printed w2 ("Warning: LLM generation failed: " +:+ exc_str e
                     +:+ ". Using rule-based explanation.")).
Proof.
  split.
  - destruct (get_relevant_snippet_returns q D 1 w) as (evl & w1 & Hret & _).
    eauto.
  - intros evl w1 e w2 Hret evidence reasoning Hgen.
    rewrite (run_xai_supplied _ _ _ _ _ _ _ _ Hret).
    exact (verbalize_raise _ _ _ _ _ _ _ _ _ Hgen).
Qed.

(** C5. When the supplied client's [generate] returns a text [t], the
    explanation of the result is [t] itself, unchanged, whether the
    reasoning status is "correct" or "incorrect"; the other fields are
    those of the retrieval and reasoning stages. *)
Theorem run_xai_generate_returns q s c D client w :
  (∃ evl w1, get_relevant_snippet q D 1 w = (Ok evl, w1))
  ∧ ∀ evl w1 t w2,
      get_relevant_snippet q D 1 w = (Ok evl, w1) →
      let evidence := first_or_empty evl in
      let reasoning := reason_mcq q s c evidence in
      generate client system_prompt
        (user_prompt q s c evidence reasoning) w1 = (Ok t, w2) →
      run_xai q s c D (Some client) w
      = (Ok {| res_status := status reasoning;
               res_explanation := t;
               res_evidence := evidence;
               res_review_topic := review_topic reasoning |}, w2).
Proof.
  split.
  - destruct (get_relevant_snippet_returns q D 1 w) as (evl & w1 & Hret & _).
    eauto.
  - intros evl w1 t w2 Hret evidence reasoning Hgen.
    rewrite (run_xai_supplied _ _ _ _ _ _ _ _ Hret).
    exact (verbalize_ok _ _ _ _ _ _ _ _ _ Hgen).
Qed.

(** C4. When no client is supplied and no credential is resolvable (the
    variable DEEPSEEK_API_KEY is unset, or set to the empty string),
    constructing the default provider raises [ValueError] and [run_xai]
    returns, without raising, the result built from the reasoning record:
    explanation equal to [explanation_hint]. *)
Theorem run_xai_no_credential q s c D w :
  environ w !! "DEEPSEEK_API_KEY" = None
  ∨ environ w !! "DEEPSEEK_API_KEY" = Some "" →
  ∃ evl w1 msg,
    get_relevant_snippet q D 1 w = (Ok evl, w1)
    ∧ DeepSeekClient_init None deepseek_default_url w1
      = (Raise (mkException ValueError msg), w1)
    ∧ let evidence := first_or_empty evl in
      let reasoning := reason_mcq q s c evidence in
      run_xai q s c D None w
      = (Ok {| res_status := status reasoning;
               res_explanation := explanation_hint reasoning;
               res_evidence := evidence;
               res_review_topic := review_topic reasoning |},
         printed w1 ("Warning: LLM client initialization failed: " +:+ msg
                     +:+ ". Using rule-based explanation.")).
Proof.
  intros Henv.
  destruct (get_relevant_snippet_returns q D 1 w) as (evl & w1 & Hret & Hw1).
  rewrite <- Hw1 in Henv.
  destruct (DeepSeekClient_init_no_credential w1 Henv) as [msg Hinit].
  exists evl, w1, msg. split_and!; [done..|].
  intros evidence reasoning.
  unfold run_xai, IO.bind at 1. rewrite Hret.
  fold evidence. fold reasoning.
  unfold IO.bind at 1, IO.try_except, IO.bind at 1. rewrite Hinit.
  reflexivity.
Qed.

(** C9. For every pair of prompts the placeholder provider's [generate]
    surfaces a clear "not implemented" result: it returns, without touching
    the world, one fixed notice which names the OpenAI client and says that
    it is not yet implemented.  The notice cannot be taken for an
    explanation: it is the same text whatever the prompts are, it differs
    from both rule-based explanations, and the pipeline hands it on
    unchanged, so that it reaches the caller word for word. *)
Theorem OpenAIClient_generate_placeholder (self : OpenAIClient)
    (system user : string) (w : World) :
  OpenAIClient_generate self system user w = (Ok openai_placeholder, w)
  ∧ Str.contains openai_placeholder "OpenAI client"
  ∧ Str.contains openai_placeholder "not yet implemented"
  ∧ (∀ system' user',
       OpenAIClient_generate self system' user' w
       = OpenAIClient_generate self system user w)
  ∧ openai_placeholder ≠ correct_hint
  ∧ openai_placeholder ≠ incorrect_hint
  ∧ ∀ q s c D w0, ∃ evl w1,
      get_relevant_snippet q D 1 w0 = (Ok evl, w1)
      ∧ run_xai q s c D (Some (openai_client self)) w0
        = (Ok {| res_status :=
                   status (reason_mcq q s c (first_or_empty evl));
                 res_explanation := openai_placeholder;
                 res_evidence := first_or_empty evl;
                 res_review_topic :=
                   review_topic (reason_mcq q s c (first_or_empty evl)) |},
           w1).
Proof.
  split_and!.
  - reflexivity.
  - by exists "", " not yet implemented. Please use DeepSeekClient for now.".
  - by exists "OpenAI client ", ". Please use DeepSeekClient for now.".
  - reflexivity.
  - vm_compute. discriminate.
  - vm_compute. discriminate.
  - intros q s c D w0.
    destruct (get_relevant_snippet_returns q D 1 w0) as (evl & w1 & Hret & _).
    exists evl, w1. split; [done|].
    rewrite (run_xai_supplied _ _ _ _ _ _ _ _ Hret).
    by apply verbalize_ok.
Qed.

End pipeline.

(** ** Facts about slices, sorted index lists and scores *)

Section list_facts.
Context {A : Type}.
Implicit Types (l : list A) (k : Z).

Lemma slice_to_nonneg l k : (0 ≤ k)%Z → slice_to l k = take (Z.to_nat k) l.
Proof. intros Hk. unfold slice_to. by rewrite (proj2 (Z.leb_le 0 k)). Qed.

Lemma slice_to_take l k : ∃ n, slice_to l k = take n l.
Proof. unfold slice_to. destruct (0 <=? k)%Z; eauto. Qed.

Lemma slice_to_sublist l k : slice_to l k `sublist_of` l.
Proof. destruct (slice_to_take l k) as [n ->]. apply sublist_take. Qed.

Lemma slice_to_length l k :
  (0 ≤ k)%Z → length (slice_to l k) ≤ Z.to_nat k.
Proof. intros Hk. rewrite slice_to_nonneg, length_take by done. lia. Qed.

(** Two lists of equal length are cut at the same place. *)
Lemma slice_to_nil_length {B} l (l' : list B) k :
  length l = length l' → slice_to l k = [] → slice_to l' k = [].
Proof.
  unfold slice_to. intros Hlen.
  destruct (0 <=? k)%Z; intros Hnil%(f_equal length);
    rewrite length_take in Hnil; simpl in Hnil;
    apply length_zero_iff_nil; rewrite length_take; lia.
Qed.

Lemma slice_to_positive_nonempty l k :
  (0 < k)%Z → l ≠ [] → slice_to l k ≠ [].
Proof.
  intros Hk Hl. rewrite slice_to_nonneg by lia.
  destruct l as [|x l]; [done|].
  destruct (Z.to_nat k) eqn:E; [lia|done].
Qed.

Lemma StronglySorted_sublist (R : relation A) l1 l2 :
  l1 `sublist_of` l2 → StronglySorted R l2 → StronglySorted R l1.
Proof.
  induction 1 as [|x l1 l2 Hsub IH|x l1 l2 Hsub IH]; intros Hsorted.
  - constructor.
  - apply StronglySorted_cons in Hsorted as [Hx Hl2].
    apply StronglySorted_cons. split; [|auto].
    rewrite Forall_forall in *. intros y Hy. apply Hx.
    by eapply sublist_subseteq.
  - apply StronglySorted_cons in Hsorted as [_ Hl2]. auto.
Qed.

Lemma StronglySorted_reverse (R : relation A) l :
  StronglySorted R l → StronglySorted (flip R) (reverse l).
Proof.
  induction 1 as [|x l Hl IH Hx]; [constructor|].
  rewrite reverse_cons. apply StronglySorted_app. split_and!.
  - intros y z Hy ->%list_elem_of_singleton. unfold flip.
    rewrite Forall_forall in Hx. apply Hx. by apply elem_of_reverse.
  - done.
  - repeat constructor.
Qed.

Lemma StronglySorted_always (R : relation A) l :
  (∀ x y, R x y) → StronglySorted R l.
Proof.
  intros HR. induction l as [|x l IH]; constructor; [done|].
  by apply Forall_forall.
Qed.

Lemma StronglySorted_weaken (R1 R2 : relation A) l :
  (∀ x y, x ∈ l → y ∈ l → R1 x y → R2 x y) →
  StronglySorted R1 l → StronglySorted R2 l.
Proof.
  intros HR Hs. induction Hs as [|x l Hl IH Hx]; constructor.
  - apply IH. intros y z Hy Hz. apply HR; by right.
  - rewrite Forall_forall in *. intros y Hy.
    apply HR; [left|by right|by apply Hx].
Qed.

End list_facts.

Section drawn_facts.
Implicit Types (D docs : list string) (idxs : list nat).

Lemma drawn_from_take D n : drawn_from D (seq 0 (length (take n D))) (take n D).
Proof.
  unfold drawn_from. apply Forall2_same_length_lookup_2.
  - by rewrite length_seq.
  - intros i j d Hj Hd. apply lookup_seq in Hj as [-> Hlt]. simpl.
    rewrite lookup_take_lt in Hd; [done|].
    rewrite length_take in Hlt. lia.
Qed.

Lemma drawn_from_slice D k :
  drawn_from D (seq 0 (length (slice_to D k))) (slice_to D k).
Proof. destruct (slice_to_take D k) as [n ->]. apply drawn_from_take. Qed.

Lemma drawn_from_length D idxs docs :
  drawn_from D idxs docs → length docs = length idxs.
Proof. intros H. symmetry. by eapply Forall2_length. Qed.

Lemma drawn_from_elem D idxs docs d :
  drawn_from D idxs docs → d ∈ docs → d ∈ D.
Proof.
  induction 1 as [|i d' idxs docs Hi _ IH]; [by intros ?%elem_of_nil|].
  intros [->|Hd]%elem_of_cons; [|auto].
  by eapply list_elem_of_lookup_2.
Qed.

(** Distinct positions of a duplicate-free list hold distinct documents. *)
Lemma drawn_from_NoDup D idxs docs :
  drawn_from D idxs docs → NoDup idxs → NoDup D → NoDup docs.
Proof.
  induction 1 as [|i d idxs docs Hi Hrest IH]; [constructor|].
  intros [Hni Hnd]%NoDup_cons HD. apply NoDup_cons. split; [|auto].
  intros Hd. apply Hni. clear IH Hni Hnd.
  induction Hrest as [|j d' idxs docs Hj _ IH]; [by apply elem_of_nil in Hd|].
  apply elem_of_cons. apply elem_of_cons in Hd as [->|Hd].
  - left. by eapply NoDup_lookup.
  - right. auto.
Qed.

(** Documents taken at distinct positions occur in the result no more
    often than in [D]. *)
Lemma drawn_from_submseteq D idxs docs :
  drawn_from D idxs docs → NoDup idxs → docs ⊆+ D.
Proof.
  revert D idxs. induction docs as [|d docs IH]; intros D idxs Hdrawn Hnd.
  { apply submseteq_nil_l. }
  apply Forall2_cons_inv_r in Hdrawn as (i & idxs' & Hi & Hrest & ->).
  apply NoDup_cons in Hnd as [Hni Hnd].
  apply submseteq_cons_l. exists (delete i D).
  split; [by apply delete_Permutation|].
  set (shift := λ j, if decide (j < i) then j else pred j).
  apply (IH (delete i D) (shift <$> idxs')).
  - assert (Forall (λ j, j ≠ i) idxs') as Hne.
    { apply Forall_forall. by intros j Hj ->. }
    unfold drawn_from. apply Forall2_fmap_l. clear Hni Hnd IH.
    induction Hrest as [|j d' idxs' docs Hj _ IHrest]; [constructor|].
    apply Forall_cons in Hne as [Hji Hne]. constructor; [|auto].
    unfold compose, shift. case_decide.
    + by rewrite list_lookup_delete_lt.
    + rewrite list_lookup_delete_ge by lia.
      by replace (S (pred j)) with j by lia.
  - apply NoDup_fmap_2_strong; [|done].
    intros j1 j2 Hj1 Hj2. unfold shift.
    assert (j1 ≠ i) by (by intros ->). assert (j2 ≠ i) by (by intros ->).
    repeat case_decide; lia.
Qed.

End drawn_facts.

Section score_facts.
Implicit Types (s : Q) (sims : list Q).

Lemma positive_iff s : positive s = true ↔ (0 < s)%Q.
Proof.
  unfold positive. rewrite negb_true_iff. split.
  - intros Hle. apply Qnot_le_lt. intros Hs.
    apply Qle_bool_iff in Hs. congruence.
  - intros Hlt. destruct (Qle_bool s 0) eqn:E; [|done].
    apply Qle_bool_iff in E. by apply Qlt_not_le in Hlt.
Qed.

Lemma passes_iff sims i :
  passes sims i = true ↔ ∃ s, sims !! i = Some s ∧ (0 < s)%Q.
Proof.
  unfold passes. destruct (sims !! i) as [s|].
  - rewrite positive_iff. split; [by eauto|].
    intros (s' & Heq & Hs). by simplify_eq.
  - split; [done|]. by intros (s' & Heq & _).
Qed.

End score_facts.

(** ** tfidf_extractor.py *)

Section retriever.
Context `{!Sklearn, !Numpy}.
Implicit Types (q : string) (D docs : list string) (sims : list Q)
  (idxs top : list nat) (k : Z).

(** The comprehension keeps, in order, the documents at the indices that
    pass the test; it cannot fail on indices within range. *)
Lemma relevant_snippets_ok D sims top :
  length sims = length D →
  Forall (λ i, i < length D) top →
  ∃ docs, relevant_snippets D sims top = Ok docs
          ∧ drawn_from D (filter (λ i, passes sims i) top) docs.
Proof.
  intros Hlen. induction 1 as [|i top Hi _ (docs & Hdocs & Hdrawn)]; simpl.
  - exists []. split; [done|constructor].
  - destruct (lookup_lt_is_Some_2 sims i) as [s Hs]; [lia|].
    destruct (lookup_lt_is_Some_2 D i) as [d Hd]; [done|].
    assert (passes sims i = positive s) as Hp
      by (unfold passes; by rewrite Hs).
    rewrite filter_cons. unfold getitem. rewrite Hs. simpl.
    destruct (positive s) eqn:Hpos; simpl.
    + rewrite Hd. simpl. rewrite Hdocs. simpl.
      exists (d :: docs). split; [done|].
      destruct (decide (passes sims i)) as [Hy|Hn]; [by constructor|].
      by rewrite Hp in Hn.
    + exists docs. split; [done|].
      destruct (decide (passes sims i)) as [Hy|Hn]; [|done].
      by rewrite Hp in Hy.
Qed.

Lemma similarity_lookup q D sims i s :
  tfidf_cosine_similarity (q :: D) = Ok sims →
  similarity q D i s ↔ sims !! i = Some s.
Proof.
  intros Hsims. unfold similarity. split.
  - intros (sims' & Hsims' & Hs). congruence.
  - eauto.
Qed.

Lemma similarity_failed q D e i s :
  tfidf_cosine_similarity (q :: D) = Raise e → ¬ similarity q D i s.
Proof. intros Hsims (sims' & Hsims' & _). congruence. Qed.

(** The two early returns and the guarded scoring, one equation each. *)
Lemma get_relevant_snippet_blank q D k w :
  Str.blank q = true →
  get_relevant_snippet q D k w = (Ok (slice_to D k), w).
Proof.
  intros Hq. unfold get_relevant_snippet.
  rewrite truthy_strip, Hq. simpl. destruct D as [|d D]; [|done].
  unfold slice_to, IO.ret. by destruct (0 <=? k)%Z; rewrite take_nil.
Qed.

Lemma get_relevant_snippet_scoring q D k w :
  D ≠ [] → Str.blank q = false →
  get_relevant_snippet q D k w
  = match score_and_select q D k with
    | Ok docs => (Ok docs, w)
    | Raise e =>
        (Ok (slice_to D k),
         printed w ("Warning: TF-IDF extraction failed: " +:+ exc_str e
                    +:+ ". Returning first " +:+ Str.of_Z k
                    +:+ " documents."))
    end.
Proof.
  intros HD Hq. unfold get_relevant_snippet.
  rewrite truthy_strip, Hq. simpl. destruct D as [|d D]; [done|].
  unfold IO.try_except, IO.lift.
  by destruct (score_and_select q (d :: D) k).
Qed.

Lemma score_and_select_failed q D k e :
  tfidf_cosine_similarity (q :: D) = Raise e →
  score_and_select q D k = Raise e.
Proof. intros Hsims. unfold score_and_select. by rewrite Hsims. Qed.

(** C8. For a non-empty document list and a positive [k], an empty or
    whitespace-only question makes [get_relevant_snippet] return the first
    [k] documents as they are.  No scoring takes place: the equation
    holds for every scorer and every [argsort], and nothing is printed. *)
Theorem get_relevant_snippet_blank_query q D k w :
  D ≠ [] → Str.blank q = true → (0 < k)%Z →
  get_relevant_snippet q D k w = (Ok (take (Z.to_nat k) D), w)
  ∧ get_relevant_snippet "" D k w = (Ok (take (Z.to_nat k) D), w).
Proof.
  intros _ Hq Hk. rewrite !get_relevant_snippet_blank by done.
  by rewrite slice_to_nonneg by lia.
Qed.

Section with_specs.
Context (sklearn_ok : sklearn_spec) (numpy_ok : numpy_spec).

Lemma argsort_elem sims i : i ∈ argsort sims ↔ i < length sims.
Proof.
  rewrite (argsort_perm numpy_ok sims), elem_of_seq. lia.
Qed.

Lemma top_indices_in_range sims k :
  Forall (λ i, i < length sims)
         (slice_to (reverse (argsort sims)) k).
Proof.
  apply Forall_forall. intros i Hi. apply argsort_elem.
  apply elem_of_reverse.
  by eapply sublist_subseteq; [apply slice_to_sublist|].
Qed.

Lemma top_indices_NoDup sims k :
  NoDup (slice_to (reverse (argsort sims)) k).
Proof.
  eapply sublist_NoDup; [|apply slice_to_sublist].
  rewrite reverse_Permutation, (argsort_perm numpy_ok sims).
  apply NoDup_seq.
Qed.

(** After reversal the scores descend along the index list. *)
Lemma top_indices_descending sims k :
  StronglySorted
    (λ i j, ∀ x y, sims !! i = Some x → sims !! j = Some y → (y <= x)%Q)
    (slice_to (reverse (argsort sims)) k).
Proof.
  apply (StronglySorted_sublist _ _ _ (slice_to_sublist _ _)).
  eapply StronglySorted_weaken;
    [|apply StronglySorted_reverse, (argsort_ascending numpy_ok sims)].
  unfold flip. intros i j _ _ Hij x y Hx Hy. by eapply Hij.
Qed.

(** The first of the top indices carries a maximal score. *)
Lemma top_indices_head_max sims k m top :
  slice_to (reverse (argsort sims)) k = m :: top →
  ∀ i x y, sims !! i = Some x → sims !! m = Some y → (x <= y)%Q.
Proof.
  intros Htop i x y Hx Hy.
  destruct (slice_to_take (reverse (argsort sims)) k) as [n Hn].
  rewrite Hn in Htop.
  destruct (reverse (argsort sims)) as [|m' rest] eqn:Hrev;
    [by rewrite take_nil in Htop|].
  destruct n as [|n]; [done|]. simpl in Htop.
  injection Htop as -> _.
  apply (f_equal reverse) in Hrev.
  rewrite reverse_involutive, reverse_cons in Hrev.
  destruct (decide (i = m)) as [->|Hne].
  { assert (x = y) as -> by congruence. apply Qle_refl. }
  pose proof (argsort_ascending numpy_ok sims) as Hsorted.
  rewrite Hrev in Hsorted.
  eapply (StronglySorted_app_1_elem_of _ _ _ i m Hsorted);
    [|by apply list_elem_of_singleton|done..].
  assert (i ∈ argsort sims) as Hi
    by (apply argsort_elem; by eapply lookup_lt_Some).
  rewrite Hrev in Hi. apply elem_of_app in Hi as [Hi|Hi]; [done|].
  by apply list_elem_of_singleton in Hi.
Qed.

(** What the [try] block computes once the scoring has succeeded. *)
Lemma score_and_select_scored q D k sims :
  tfidf_cosine_similarity (q :: D) = Ok sims →
  let top := slice_to (reverse (argsort sims)) k in
  let idxs := filter (λ i, passes sims i) top in
  ∃ docs, drawn_from D idxs docs
          ∧ score_and_select q D k
            = Ok (match docs with [] => slice_to D k | _ => docs end).
Proof.
  intros Hsims top idxs.
  pose proof (similarity_length sklearn_ok _ _ _ Hsims) as Hlen.
  destruct (relevant_snippets_ok D sims top Hlen) as (docs & Hdocs & Hdrawn).
  { rewrite <- Hlen. apply top_indices_in_range. }
  exists docs. split; [done|].
  unfold score_and_select. rewrite Hsims. simpl.
  fold top. rewrite Hdocs. simpl. by destruct docs.
Qed.

(** The fallback result: the first documents, at their own positions. *)
Lemma first_documents_shape D k :
  (0 < k)%Z →
  let docs := slice_to D k in
  let idxs := seq 0 (length docs) in
  length docs ≤ Z.to_nat k ∧ drawn_from D idxs docs ∧ NoDup idxs.
Proof.
  intros Hk docs idxs. split_and!.
  - apply slice_to_length. lia.
  - apply drawn_from_slice.
  - apply NoDup_seq.
Qed.

(** When the scoring succeeded and no top index passes the test, no
    document has a positive score (for a [k] that selects something). *)
Lemma no_top_passes_no_positive sims k :
  sims ≠ [] → (0 < k)%Z →
  filter (λ i, passes sims i) (slice_to (reverse (argsort sims)) k) = [] →
  ∀ i x, sims !! i = Some x → (x <= 0)%Q.
Proof.
  intros Hsims Hk Hfilter i x Hx.
  destruct (slice_to (reverse (argsort sims)) k) as [|m top] eqn:Htop.
  { exfalso. revert Htop. apply slice_to_positive_nonempty; [done|].
    intros Hnil%(f_equal length).
    rewrite length_reverse, (argsort_perm numpy_ok sims), length_seq in Hnil.
    by destruct sims. }
  assert (m < length sims) as [y Hy]%lookup_lt_is_Some_2.
  { pose proof (top_indices_in_range sims k) as Hrange.
    rewrite Htop in Hrange. by apply Forall_cons in Hrange as [? _]. }
  apply Qle_trans with y.
  - by eapply top_indices_head_max.
  - apply Qnot_lt_le. intros Hpos.
    assert (m ∈ filter (λ i, passes sims i) (m :: top)) as Hm.
    { apply list_elem_of_filter. split; [|by left].
      apply Is_true_true, passes_iff. eauto. }
    rewrite Hfilter in Hm. by apply elem_of_nil in Hm.
Qed.

(** C7. For a non-empty document list and a question that is not
    whitespace-only: if no document has a similarity above zero, the
    result is [D[:k]], the first [k] documents; otherwise every returned
    document has a similarity above zero (there are at most [k] of
    them, and at least one when [k] is positive). *)
Theorem get_relevant_snippet_positive_or_first q D k w :
  D ≠ [] → Str.blank q = false →
  ((¬ ∃ i s, similarity q D i s ∧ (0 < s)%Q) →
     ∃ w', get_relevant_snippet q D k w = (Ok (slice_to D k), w'))
  ∧ ((∃ i s, similarity q D i s ∧ (0 < s)%Q) →
     ∃ idxs docs,
       get_relevant_snippet q D k w = (Ok docs, w)
       ∧ drawn_from D idxs docs
       ∧ Forall (λ i, ∃ s, similarity q D i s ∧ (0 < s)%Q) idxs
       ∧ ((0 ≤ k)%Z → length docs ≤ Z.to_nat k)
       ∧ ((0 < k)%Z → docs ≠ [])).
Proof.
  intros HD Hq. rewrite get_relevant_snippet_scoring by done.
  destruct (tfidf_cosine_similarity (q :: D)) as [sims|e] eqn:Hsims.
  2:{ rewrite (score_and_select_failed _ _ _ _ Hsims). split; [by eauto|].
      intros (i & s & Hs & _).
      by apply (similarity_failed _ _ _ _ _ Hsims) in Hs. }
  pose proof (similarity_length sklearn_ok _ _ _ Hsims) as Hlen.
  destruct (score_and_select_scored q D k sims Hsims)
    as (docs & Hdrawn & ->).
  set (top := slice_to (reverse (argsort sims)) k) in *.
  set (idxs := filter (λ i, passes sims i) top) in *.
  assert (Forall (λ i, ∃ s, similarity q D i s ∧ (0 < s)%Q) idxs) as Hpos.
  { apply Forall_forall. intros i [Hi _]%list_elem_of_filter.
    apply Is_true_true, passes_iff in Hi as (s & Hs & Hs0).
    exists s. by rewrite similarity_lookup. }
  split.
  - intros Hnone. exists w.
    destruct docs as [|d docs]; [done|]. exfalso.
    apply Forall2_cons_inv_r in Hdrawn as (i & idxs' & _ & _ & Heq).
    rewrite Heq in Hpos. apply Forall_cons in Hpos as [(s & Hs) _].
    apply Hnone. eauto.
  - intros (i & s & Hs & Hs0).
    apply (similarity_lookup _ _ _ _ _ Hsims) in Hs.
    destruct docs as [|d docs].
    + (* nothing passed: the slice itself selects nothing *)
      apply Forall2_nil_inv_r in Hdrawn.
      assert (top = []) as Htop.
      { destruct top as [|m top'] eqn:Htop; [done|]. exfalso.
        assert (m < length sims) as [y Hy]%lookup_lt_is_Some_2.
        { pose proof (top_indices_in_range sims k) as Hrange.
          fold top in Hrange. rewrite Htop in Hrange.
          by apply Forall_cons in Hrange as [? _]. }
        assert (m ∈ idxs) as Hm.
        { apply list_elem_of_filter. split; [|by left].
          apply Is_true_true, passes_iff. exists y. split; [done|].
          eapply Qlt_le_trans; [exact Hs0|].
          by eapply top_indices_head_max. }
        rewrite Hdrawn in Hm. by apply elem_of_nil in Hm. }
      assert (slice_to D k = []) as HDk.
      { apply (slice_to_nil_length (reverse (argsort sims))); [|done].
        by rewrite length_reverse, (argsort_perm numpy_ok sims),
          length_seq. }
      exists [], []. rewrite HDk. split_and!.
      * done.
      * constructor.
      * constructor.
      * intros _. simpl. lia.
      * intros Hk. by apply slice_to_positive_nonempty in HDk.
    + exists idxs, (d :: docs). split_and!; try done.
      intros Hk. rewrite (drawn_from_length _ _ _ Hdrawn).
      etrans; [apply length_filter|]. by apply slice_to_length.
Qed.

(** C2, as the code has it.  For a positive [k] the result has at most
    [k] documents; they are the documents of [D] at pairwise distinct
    positions [idxs]: each is an element of [D], no position of [D] is
    returned twice (the result holds a text no more often than [D] does,
    and holds distinct texts when [D] does); and along the result the
    similarity to the question never increases. *)
Theorem get_relevant_snippet_top_k q D k w :
  (0 < k)%Z →
  ∃ idxs docs w',
    get_relevant_snippet q D k w = (Ok docs, w')
    ∧ length docs ≤ Z.to_nat k
    ∧ drawn_from D idxs docs
    ∧ (∀ d, d ∈ docs → d ∈ D)
    ∧ NoDup idxs
    ∧ docs ⊆+ D
    ∧ (NoDup D → NoDup docs)
    ∧ StronglySorted (at_least_as_similar q D) idxs.
Proof.
  intros Hk.
  cut (∃ idxs docs w',
         get_relevant_snippet q D k w = (Ok docs, w')
         ∧ length docs ≤ Z.to_nat k ∧ drawn_from D idxs docs
         ∧ NoDup idxs ∧ StronglySorted (at_least_as_similar q D) idxs).
  { intros (idxs & docs & w' & Hret & Hlen & Hdrawn & Hnd & Hsorted).
    exists idxs, docs, w'. split_and!; try done.
    - intros d. by apply drawn_from_elem with idxs.
    - by apply drawn_from_submseteq with idxs.
    - by apply drawn_from_NoDup with idxs. }
  destruct (first_documents_shape D k Hk) as (Hflen & Hfdrawn & Hfnd).
  destruct (Str.blank q) eqn:Hq.
  { (* no scoring: every score of a blank question is zero *)
    exists (seq 0 (length (slice_to D k))), (slice_to D k), w.
    rewrite get_relevant_snippet_blank by done. split_and!; try done.
    apply StronglySorted_always. intros i j si sj Hi Hj.
    destruct Hi as (sims & Hsims & Hi). destruct Hj as (sims' & Hsims' & Hj).
    rewrite (similarity_blank sklearn_ok _ _ _ _ _ Hq Hsims Hi).
    rewrite (similarity_blank sklearn_ok _ _ _ _ _ Hq Hsims' Hj).
    apply Qle_refl. }
  destruct D as [|d0 D0] eqn:HD.
  { exists [], [], w. split_and!; try done; try constructor. simpl. lia. }
  rewrite <- HD in *. assert (D ≠ []) as HDne by (by rewrite HD).
  clear HD. rewrite get_relevant_snippet_scoring by done.
  destruct (tfidf_cosine_similarity (q :: D)) as [sims|e] eqn:Hsims.
  2:{ (* the scoring failed: no document has a score *)
      rewrite (score_and_select_failed _ _ _ _ Hsims).
      eexists (seq 0 (length (slice_to D k))), (slice_to D k), _.
      split_and!; try done.
      apply StronglySorted_always. intros i j si sj Hi.
      by apply (similarity_failed _ _ _ _ _ Hsims) in Hi. }
  pose proof (similarity_length sklearn_ok _ _ _ Hsims) as Hlen.
  destruct (score_and_select_scored q D k sims Hsims)
    as (docs & Hdrawn & ->).
  destruct docs as [|d docs].
  - (* nothing passed: all scores are zero and the first documents
       are returned *)
    apply Forall2_nil_inv_r in Hdrawn.
    exists (seq 0 (length (slice_to D k))), (slice_to D k), w.
    split_and!; try done.
    apply StronglySorted_always. intros i j si sj Hi Hj.
    apply (similarity_lookup _ _ _ _ _ Hsims) in Hi, Hj.
    apply Qle_trans with 0%Q.
    + eapply no_top_passes_no_positive; [|exact Hk|exact Hdrawn|exact Hj].
      intros ->. destruct D; [done|discriminate Hlen].
    + by eapply (similarity_nonneg sklearn_ok).
  - exists (filter (λ i, passes sims i)
              (slice_to (reverse (argsort sims)) k)), (d :: docs), w.
    split_and!; try done.
    + rewrite (drawn_from_length _ _ _ Hdrawn).
      etrans; [apply length_filter|]. apply slice_to_length. lia.
    + apply NoDup_filter, top_indices_NoDup.
    + eapply StronglySorted_weaken;
        [|eapply StronglySorted_sublist;
           [apply sublist_filter|apply top_indices_descending]].
      intros i j _ _ Hij si sj Hi Hj.
      apply (similarity_lookup _ _ _ _ _ Hsims) in Hi, Hj. eauto.
Qed.

End with_specs.

End retriever.

(** ** The reference instances meet the library contracts *)

Section reference_instances.

Lemma word_overlap_spec : @sklearn_spec Stub.word_overlap.
Proof.
  split.
  - intros q docs sims Hsims. unfold tfidf_cosine_similarity in Hsims.
    simpl in Hsims.
    destruct (Str.blank q); injection Hsims as <-; by rewrite length_fmap.
  - intros q docs sims i s Hsims Hs. unfold tfidf_cosine_similarity in Hsims.
    simpl in Hsims.
    destruct (Str.blank q); injection Hsims as <-;
      apply list_lookup_fmap_Some in Hs as (d & -> & _).
    + apply Qle_refl.
    + change 0%Q with (inject_Z 0). rewrite <- Zle_Qle. lia.
  - intros q docs sims i s Hq Hsims Hs.
    unfold tfidf_cosine_similarity in Hsims. simpl in Hsims.
    rewrite Hq in Hsims. injection Hsims as <-.
    by apply list_lookup_fmap_Some in Hs as (d & -> & _).
Qed.

Lemma failing_scorer_spec : @sklearn_spec Stub.failing_scorer.
Proof. split; intros; discriminate. Qed.

Lemma le_at_transitive a : Transitive (Stub.le_at a).
Proof. intros i j k. unfold Stub.le_at. apply Qle_trans. Qed.

Lemma le_at_total a : Total (Stub.le_at a).
Proof.
  intros i j. unfold Stub.le_at.
  destruct (Qlt_le_dec (Stub.value a j) (Stub.value a i)) as [Hlt|Hle].
  - right. by apply Qlt_le_weak.
  - by left.
Qed.

Lemma stable_argsort_spec : @numpy_spec Stub.stable_argsort.
Proof.
  split.
  - intros a. apply merge_sort_Permutation.
  - intros a. unfold argsort, Stub.stable_argsort.
    eapply StronglySorted_weaken;
      [|apply (@StronglySorted_merge_sort _ (Stub.le_at a) (Stub.le_at_dec a)
                 (le_at_transitive a) (le_at_total a))].
    intros i j _ _ Hij x y Hx Hy. unfold Stub.le_at, Stub.value in Hij.
    by rewrite Hx, Hy in Hij.
Qed.

End reference_instances.

(** ** The properties on the specification's scenarios *)

Section scenarios.

(** C8 on a whitespace-only and on the empty question. *)
Lemma get_relevant_snippet_blank_query_witness :
  @get_relevant_snippet Stub.failing_scorer Stub.stable_argsort
    "   " Stub.lectures 2 Stub.empty_world
  = (Ok [Stub.week3; Stub.week5], Stub.empty_world)
  ∧ @get_relevant_snippet Stub.failing_scorer Stub.stable_argsort
      "" Stub.lectures 2 Stub.empty_world
    = (Ok [Stub.week3; Stub.week5], Stub.empty_world).
Proof.
  apply (@get_relevant_snippet_blank_query
           Stub.failing_scorer Stub.stable_argsort
           "   " Stub.lectures 2 Stub.empty_world).
  - discriminate.
  - reflexivity.
  - lia.
Defined.

(** C7 on a question that shares words with two documents, and on one
    that shares none. *)
Lemma get_relevant_snippet_positive_or_first_witness :
  (∃ idxs docs,
     @get_relevant_snippet Stub.word_overlap Stub.stable_argsort
       Stub.question Stub.lectures 1 Stub.empty_world
     = (Ok docs, Stub.empty_world)
     ∧ drawn_from Stub.lectures idxs docs
     ∧ Forall (λ i, ∃ s, @similarity Stub.word_overlap Stub.question
                           Stub.lectures i s ∧ (0 < s)%Q) idxs
     ∧ ((0 ≤ 1)%Z → length docs ≤ Z.to_nat 1)
     ∧ ((0 < 1)%Z → docs ≠ []))
  ∧ (∃ w', @get_relevant_snippet Stub.word_overlap Stub.stable_argsort
             "zebra" Stub.lectures 1 Stub.empty_world
           = (Ok (slice_to Stub.lectures 1), w')).
Proof.
  split.
  - apply (@get_relevant_snippet_positive_or_first
             Stub.word_overlap Stub.stable_argsort
             word_overlap_spec stable_argsort_spec
             Stub.question Stub.lectures 1 Stub.empty_world).
    + discriminate.
    + reflexivity.
    + exists 2, 2%Q. split; [|reflexivity].
      eexists. split; reflexivity.
  - apply (@get_relevant_snippet_positive_or_first
             Stub.word_overlap Stub.stable_argsort
             word_overlap_spec stable_argsort_spec
             "zebra" Stub.lectures 1 Stub.empty_world).
    + discriminate.
    + reflexivity.
    + intros (i & s & (sims & Hsims & Hi) & Hs).
      vm_compute in Hsims. injection Hsims as <-.
      destruct i as [|[|[|i]]]; simpl in Hi; try discriminate Hi;
        injection Hi as <-; discriminate Hs.
Defined.

(** C2 on the sample lecture notes with [k = 2]. *)
Lemma get_relevant_snippet_top_k_witness :
  ∃ idxs docs w',
    @get_relevant_snippet Stub.word_overlap Stub.stable_argsort
      Stub.question Stub.lectures 2 Stub.empty_world = (Ok docs, w')
    ∧ length docs ≤ Z.to_nat 2
    ∧ drawn_from Stub.lectures idxs docs
    ∧ (∀ d, d ∈ docs → d ∈ Stub.lectures)
    ∧ NoDup idxs
    ∧ docs ⊆+ Stub.lectures
    ∧ (NoDup Stub.lectures → NoDup docs)
    ∧ StronglySorted
        (@at_least_as_similar Stub.word_overlap Stub.question Stub.lectures) idxs.
Proof.
  apply (@get_relevant_snippet_top_k
           Stub.word_overlap Stub.stable_argsort
           word_overlap_spec stable_argsort_spec
           Stub.question Stub.lectures 2 Stub.empty_world).
  lia.
Defined.

(** C2 as stated fails on a document list that holds a text twice: for
    a positive [k] both copies come back, so the result has a duplicate,
    with a question that scores the documents as with an empty one. *)
Lemma get_relevant_snippet_returns_text_twice :
  (0 < 2)%Z
  ∧ @get_relevant_snippet Stub.word_overlap Stub.stable_argsort
      "text mining" [Stub.week7; Stub.week7] 2 Stub.empty_world
    = (Ok [Stub.week7; Stub.week7], Stub.empty_world)
  ∧ @get_relevant_snippet Stub.word_overlap Stub.stable_argsort
      "" [Stub.week7; Stub.week7] 2 Stub.empty_world
    = (Ok [Stub.week7; Stub.week7], Stub.empty_world)
  ∧ ¬ NoDup [Stub.week7; Stub.week7].
Proof.
  split_and!.
  - lia.
  - reflexivity.
  - reflexivity.
  - intros [Hin _]%NoDup_cons. apply Hin. by left.
Qed.

(** C1, scenario 3: a client that raises on [generate]. *)
Lemma run_xai_generate_raises_witness :
  @run_xai Stub.word_overlap Stub.stable_argsort Stub.offline Stub.quote
    Stub.question "Berlin" "Paris" Stub.lectures
    (Some (Stub.raising_client (mkException RuntimeError "provider down")))
    Stub.empty_world
  = (Ok {| res_status := "incorrect";
           res_explanation := incorrect_hint;
           res_evidence := Stub.week7;
           res_review_topic := evidence_review Stub.week7 |},
     printed Stub.empty_world
       "Warning: LLM generation failed: provider down. Using rule-based explanation.").
Proof.
  exact (proj2 (@run_xai_generate_raises
                  Stub.word_overlap Stub.stable_argsort Stub.offline Stub.quote
                  Stub.question "Berlin" "Paris" Stub.lectures
                  (Stub.raising_client
                     (mkException RuntimeError "provider down"))
                  Stub.empty_world)
           [Stub.week7] Stub.empty_world
           (mkException RuntimeError "provider down") Stub.empty_world
           eq_refl eq_refl).
Defined.

(** C5, scenario 4: a client that returns "Great job!", once with an
    incorrect and once with a correct answer. *)
Lemma run_xai_generate_returns_witness :
  @run_xai Stub.word_overlap Stub.stable_argsort Stub.offline Stub.quote
    Stub.question "Berlin" "Paris" Stub.lectures
    (Some (Stub.fixed_client "Great job!")) Stub.empty_world
  = (Ok {| res_status := "incorrect";
           res_explanation := "Great job!";
           res_evidence := Stub.week7;
           res_review_topic := evidence_review Stub.week7 |},
     Stub.empty_world)
  ∧ @run_xai Stub.word_overlap Stub.stable_argsort Stub.offline Stub.quote
      Stub.question " paris" "Paris" Stub.lectures
      (Some (Stub.fixed_client "Great job!")) Stub.empty_world
    = (Ok {| res_status := "correct";
             res_explanation := "Great job!";
             res_evidence := Stub.week7;
             res_review_topic := correct_review |},
       Stub.empty_world).
Proof.
  split.
  - exact (proj2 (@run_xai_generate_returns
                    Stub.word_overlap Stub.stable_argsort Stub.offline Stub.quote
                    Stub.question "Berlin" "Paris" Stub.lectures
                    (Stub.fixed_client "Great job!") Stub.empty_world)
             [Stub.week7] Stub.empty_world "Great job!" Stub.empty_world
             eq_refl eq_refl).
  - exact (proj2 (@run_xai_generate_returns
                    Stub.word_overlap Stub.stable_argsort Stub.offline Stub.quote
                    Stub.question " paris" "Paris" Stub.lectures
                    (Stub.fixed_client "Great job!") Stub.empty_world)
             [Stub.week7] Stub.empty_world "Great job!" Stub.empty_world
             eq_refl eq_refl).
Defined.

(** C4, scenario 1: no client and an empty environment. *)
Lemma run_xai_no_credential_witness :
  ∃ evl w1 msg,
    @get_relevant_snippet Stub.word_overlap Stub.stable_argsort
      Stub.question Stub.lectures 1 Stub.empty_world = (Ok evl, w1)
    ∧ DeepSeekClient_init None deepseek_default_url w1
      = (Raise (mkException ValueError msg), w1)
    ∧ @run_xai Stub.word_overlap Stub.stable_argsort Stub.offline Stub.quote
        Stub.question "To train a neural network"
        "To measure term importance in a document" Stub.lectures None
        Stub.empty_world
      = (Ok {| res_status :=
                 status (reason_mcq Stub.question "To train a neural network"
                           "To measure term importance in a document"
                           (first_or_empty evl));
               res_explanation :=
                 explanation_hint
                   (reason_mcq Stub.question "To train a neural network"
                      "To measure term importance in a document"
                      (first_or_empty evl));
               res_evidence := first_or_empty evl;
               res_review_topic :=
                 review_topic
                   (reason_mcq Stub.question "To train a neural network"
                      "To measure term importance in a document"
                      (first_or_empty evl)) |},
         printed w1 ("Warning: LLM client initialization failed: " +:+ msg
                     +:+ ". Using rule-based explanation.")).
Proof.
  apply (@run_xai_no_credential
           Stub.word_overlap Stub.stable_argsort Stub.offline Stub.quote
           Stub.question "To train a neural network"
           "To measure term importance in a document" Stub.lectures
           Stub.empty_world).
  left. reflexivity.
Defined.

(** C9 on a concrete call. *)
Lemma OpenAIClient_generate_placeholder_witness :
  OpenAIClient_generate (mkOpenAI "sk-test" openai_default_url)
    "system" "user" Stub.empty_world
  = (Ok openai_placeholder, Stub.empty_world).
Proof.
  exact (proj1 (@OpenAIClient_generate_placeholder
                  Stub.word_overlap Stub.stable_argsort Stub.offline Stub.quote
                  (mkOpenAI "sk-test" openai_default_url)
                  "system" "user" Stub.empty_world)).
Defined.

End scenarios.

(** * Further properties *)

(** ** rule_reasoner.py: size and dependence *)

Section reasoner_more.
Implicit Types (q s c e : string).

Lemma string_length_app s r :
  String.length (s +:+ r) = String.length s + String.length r.
Proof.
  induction s as [|a s IH]; [done|].
  change (S (String.length (s +:+ r)) = S (String.length s + String.length r)).
  by rewrite IH.
Qed.

Lemma truthy_take n e :
  Str.truthy (Str.take (S n) e) = Str.truthy e.
Proof. by destruct e. Qed.

(** X1. The review topic has at most 250 characters, however long the
    evidence is: the excerpt is cut at 100 characters and the text around
    it is fixed. *)
Theorem reason_mcq_review_topic_bounded q s c e :
  String.length (review_topic (reason_mcq q s c e)) ≤ 250
  ∧ String.length (explanation_hint (reason_mcq q s c e)) ≤ 187.
Proof.
  destruct (decide (Str.lower (Str.strip s) = Str.lower (Str.strip c)))
    as [Heq|Hne].
  - rewrite reason_mcq_equal by done. cbn [review_topic explanation_hint].
    split; vm_compute; lia.
  - rewrite reason_mcq_different by done. cbn [review_topic explanation_hint].
    split; [|vm_compute; lia].
    destruct (Str.truthy e); [|vm_compute; lia].
    unfold evidence_review. rewrite !string_length_app, take_length.
    change (String.length
              "You should review the lecture section mentioned in the evidence: ")
      with 65.
    change (String.length "... (if applicable). ") with 21.
    change (String.length
              "Focus on understanding the key concepts and their relationships.")
      with 64.
    lia.
Qed.

(** X2. The record depends on the evidence only through its first 100
    characters, and not at all on the question. *)
Theorem reason_mcq_evidence_prefix q q' s c e e' :
  Str.take 100 e = Str.take 100 e' →
  reason_mcq q s c e = reason_mcq q' s c e'.
Proof.
  intros Htake. unfold reason_mcq.
  destruct (String.eqb _ _); [done|].
  rewrite <- (truthy_take 99 e), <- (truthy_take 99 e'). unfold evidence_review.
  by rewrite Htake.
Qed.

(** X2 on a concrete input. *)
Lemma reason_mcq_evidence_prefix_witness :
  reason_mcq "Which city?" "Berlin" "Paris"
    "0123456789012345678901234567890123456789012345678901234567890123456789012345678901234567890123456789 first ending"
  = reason_mcq "Capital of France?" "Berlin" "Paris"
      "0123456789012345678901234567890123456789012345678901234567890123456789012345678901234567890123456789 and another one".
Proof.
  apply reason_mcq_evidence_prefix. reflexivity.
Defined.

End reasoner_more.

(** ** tfidf_extractor.py: robustness, output and ranking *)

Section retriever_more.
Context `{!Sklearn, !Numpy}.
Implicit Types (q : string) (D docs : list string) (sims : list Q)
  (idxs top : list nat) (k : Z).

(** Whatever the index list and the scores are, the comprehension only
    yields documents of the list, at most one per index. *)
Lemma relevant_snippets_sound D sims top docs :
  relevant_snippets D sims top = Ok docs →
  (∀ d, d ∈ docs → d ∈ D) ∧ length docs ≤ length top.
Proof.
  revert docs. induction top as [|i top IH]; simpl; intros docs Hdocs.
  { injection Hdocs as <-. split; [by intros d ?%elem_of_nil|done]. }
  unfold getitem in Hdocs.
  destruct (sims !! i) as [s|]; simpl in Hdocs; [|done].
  destruct (positive s).
  - destruct (D !! i) as [d|] eqn:Hd; simpl in Hdocs; [|done].
    destruct (relevant_snippets D sims top) as [tl|]; simpl in Hdocs; [|done].
    injection Hdocs as <-. destruct (IH tl eq_refl) as [Hin Hlen].
    split; [|simpl; lia].
    intros d' [->|Hd']%elem_of_cons; [|auto].
    by eapply list_elem_of_lookup_2.
  - destruct (IH docs Hdocs) as [Hin Hlen]. split; [done|lia].
Qed.

Lemma slice_to_elem {A} (l : list A) k x : x ∈ slice_to l k → x ∈ l.
Proof. apply sublist_subseteq, slice_to_sublist. Qed.

Lemma slice_to_length_le {A} (l : list A) k :
  (0 ≤ k)%Z → length (slice_to l k) ≤ Z.to_nat k.
Proof. apply slice_to_length. Qed.

(** A call returns either the first [k] documents or a non-empty list
    produced by the comprehension. *)
Lemma get_relevant_snippet_cases q D k w :
  ∃ docs w',
    get_relevant_snippet q D k w = (Ok docs, w')
    ∧ (docs = slice_to D k
       ∨ (docs ≠ []
          ∧ ∃ sims, relevant_snippets D sims
                      (slice_to (reverse (argsort sims)) k) = Ok docs)).
Proof.
  destruct (Str.blank q) eqn:Hq.
  { rewrite get_relevant_snippet_blank by done. eexists _, _. eauto. }
  destruct (decide (D = [])) as [->|HD].
  { exists [], w. split; [done|]. left.
    destruct (slice_to_take (@nil string) k) as [n ->]. by rewrite take_nil. }
  rewrite get_relevant_snippet_scoring by done.
  destruct (score_and_select q D k) as [docs|e] eqn:Hscore;
    [|eexists _, _; eauto].
  unfold score_and_select in Hscore.
  destruct (tfidf_cosine_similarity (q :: D)) as [sims|]; simpl in Hscore;
    [|done].
  destruct (relevant_snippets D sims _) as [found|] eqn:Hfound;
    simpl in Hscore; [|done].
  destruct found as [|d found]; injection Hscore as <-;
    eexists _, _; eauto.
Qed.

(** X3. Even with a scorer and an [argsort] that honour no contract at all,
    [get_relevant_snippet] returns without raising, every returned
    document is one of the given documents, there are at most [k] of them
    for [k >= 0], an empty document list gives an empty result, and a
    non-empty one with a positive [k] gives a non-empty result. *)
Theorem get_relevant_snippet_within_documents q D k w :
  ∃ docs w',
    get_relevant_snippet q D k w = (Ok docs, w')
    ∧ (∀ d, d ∈ docs → d ∈ D)
    ∧ ((0 ≤ k)%Z → length docs ≤ Z.to_nat k)
    ∧ (D = [] → docs = [])
    ∧ (D ≠ [] → (0 < k)%Z → docs ≠ []).
Proof.
  destruct (get_relevant_snippet_cases q D k w)
    as (docs & w' & Hret & [->|(Hne & sims & Hfound)]);
    exists docs, w' || exists (slice_to D k), w'.
  - split_and!; [done|..].
    + intros d. apply slice_to_elem.
    + apply slice_to_length.
    + intros ->. destruct (slice_to_take (@nil string) k) as [n ->].
      apply take_nil.
    + intros HD Hk. by apply slice_to_positive_nonempty.
  - destruct (relevant_snippets_sound _ _ _ _ Hfound) as [Hin Hlen].
    split_and!; try done.
    + intros Hk. etrans; [exact Hlen|]. by apply slice_to_length.
    + intros ->. destruct docs as [|d docs]; [done|].
      exfalso. apply (proj1 (elem_of_nil d)), Hin. by left.
Qed.

(** The evidence the pipeline extracts from a top-1 retrieval. *)
Lemma first_or_empty_member q D w evl w' :
  get_relevant_snippet q D 1 w = (Ok evl, w') →
  (D = [] ∧ first_or_empty evl = "")
  ∨ (D ≠ [] ∧ first_or_empty evl ∈ D).
Proof.
  intros Hret.
  destruct (get_relevant_snippet_cases q D 1 w)
    as (docs & w'' & Hret' & Hcases).
  rewrite Hret in Hret'. injection Hret' as <- <-.
  destruct D as [|d0 D]; [left|right]; (split; [done|]).
  - destruct Hcases as [->|(Hne & sims & Hfound)]; [done|].
    destruct (relevant_snippets_sound _ _ _ _ Hfound) as [Hin _].
    destruct evl as [|d evl]; [done|].
    exfalso. apply (proj1 (elem_of_nil d)), Hin. by left.
  - destruct Hcases as [->|(Hne & sims & Hfound)]; [by left|].
    destruct (relevant_snippets_sound _ _ _ _ Hfound) as [Hin _].
    destruct evl as [|d evl]; [done|]. apply Hin. by left.
Qed.

(** X4. The only trace a call leaves is at most one warning line, and a call
    that printed it returned the first [k] documents; the environment
    variables are never touched. *)
Theorem get_relevant_snippet_output q D k w :
  ∃ docs w',
    get_relevant_snippet q D k w = (Ok docs, w')
    ∧ environ w' = environ w
    ∧ (w' = w
       ∨ ∃ e, w' = printed w (tfidf_warning e k) ∧ docs = slice_to D k).
Proof.
  destruct (Str.blank q) eqn:Hq.
  { rewrite get_relevant_snippet_blank by done. eexists _, _. eauto. }
  destruct (decide (D = [])) as [->|HD].
  { eexists _, _. split_and!; [done..|]. by left. }
  rewrite get_relevant_snippet_scoring by done.
  destruct (score_and_select q D k) as [docs|e].
  - eexists _, _. eauto.
  - eexists _, _. split_and!; [done..|]. right. by exists e.
Qed.

Lemma printed_neq w line : printed w line ≠ w.
Proof.
  intros Heq%(f_equal stdout)%(f_equal length). simpl in Heq.
  rewrite length_app in Heq.
  simpl in Heq. lia.
Qed.

Section with_contracts.
Context (sklearn_ok : sklearn_spec) (numpy_ok : numpy_spec).

Lemma reverse_argsort_descending sims :
  StronglySorted
    (λ i j, ∀ x y, sims !! i = Some x → sims !! j = Some y → (y <= x)%Q)
    (reverse (argsort sims)).
Proof.
  eapply StronglySorted_weaken;
    [|apply StronglySorted_reverse, (argsort_ascending numpy_ok sims)].
  unfold flip. intros i j _ _ Hij x y Hx Hy. by eapply Hij.
Qed.

(** X5. With libraries that honour their contracts, the warning is printed
    exactly when scoring was attempted and the scorer itself raised: the
    index arithmetic of the function never fails on its own. *)
Theorem get_relevant_snippet_warns_iff q D k w :
  snd (get_relevant_snippet q D k w) ≠ w
  ↔ D ≠ [] ∧ Str.blank q = false
    ∧ ∃ e, tfidf_cosine_similarity (q :: D) = Raise e.
Proof.
  destruct (Str.blank q) eqn:Hq.
  { rewrite get_relevant_snippet_blank by done. simpl.
    split; [done|]. by intros (_ & ? & _). }
  destruct (decide (D = [])) as [->|HD].
  { simpl. split; [done|]. by intros (? & _). }
  rewrite get_relevant_snippet_scoring by done.
  destruct (tfidf_cosine_similarity (q :: D)) as [sims|e] eqn:Hsims.
  - destruct (score_and_select_scored sklearn_ok numpy_ok q D k sims Hsims)
      as (docs & _ & ->). simpl.
    split; [done|]. by intros (_ & _ & e & ?).
  - rewrite (score_and_select_failed _ _ _ _ Hsims). simpl. split.
    + eauto.
    + intros _. apply printed_neq.
Qed.

(** When some document has a positive score and [k] is positive, the top
    index list starts with an index that passes the test. *)
Lemma top_indices_head_passes sims k i s :
  sims !! i = Some s → (0 < s)%Q → (0 < k)%Z →
  ∃ m top, slice_to (reverse (argsort sims)) k = m :: top
           ∧ passes sims m = true.
Proof.
  intros Hi Hs Hk.
  destruct (slice_to (reverse (argsort sims)) k) as [|m top] eqn:Htop.
  { exfalso. revert Htop. apply slice_to_positive_nonempty; [done|].
    intros Hnil%(f_equal length).
    rewrite length_reverse, (argsort_perm numpy_ok sims), length_seq in Hnil.
    apply lookup_lt_Some in Hi. simpl in Hnil. lia. }
  exists m, top. split; [done|].
  assert (m < length sims) as [y Hy]%lookup_lt_is_Some_2.
  { pose proof (top_indices_in_range numpy_ok sims k) as Hrange.
    rewrite Htop in Hrange. by apply Forall_cons in Hrange as [? _]. }
  apply passes_iff. exists y. split; [done|].
  eapply Qlt_le_trans; [exact Hs|].
  by eapply (top_indices_head_max numpy_ok).
Qed.

(** The result of a call whose scoring found a positive score. *)
Lemma get_relevant_snippet_selected q D k w sims i s :
  D ≠ [] → Str.blank q = false → (0 < k)%Z →
  tfidf_cosine_similarity (q :: D) = Ok sims →
  sims !! i = Some s → (0 < s)%Q →
  ∃ m top d docs,
    slice_to (reverse (argsort sims)) k = m :: top
    ∧ passes sims m = true
    ∧ get_relevant_snippet q D k w = (Ok (d :: docs), w)
    ∧ drawn_from D (m :: filter (λ j, passes sims j) top) (d :: docs).
Proof.
  intros HD Hq Hk Hsims Hi Hs.
  destruct (top_indices_head_passes sims k i s Hi Hs Hk)
    as (m & top & Htop & Hm).
  destruct (score_and_select_scored sklearn_ok numpy_ok q D k sims Hsims)
    as (docs & Hdrawn & Hscore).
  rewrite Htop, filter_cons, decide_True in Hdrawn by (by rewrite Hm).
  destruct docs as [|d docs]; [by apply Forall2_nil_inv_r in Hdrawn|].
  exists m, top, d, docs. split_and!; try done.
  by rewrite get_relevant_snippet_scoring, Hscore.
Qed.

(** X6. The first returned document is a best match: when some document has
    a positive similarity and [k] is positive, the head of the result has a
    similarity that no document of [D] exceeds. *)
Theorem get_relevant_snippet_best_first q D k w i s :
  D ≠ [] → Str.blank q = false → (0 < k)%Z →
  similarity q D i s → (0 < s)%Q →
  ∃ m sm d docs,
    get_relevant_snippet q D k w = (Ok (d :: docs), w)
    ∧ D !! m = Some d
    ∧ similarity q D m sm
    ∧ ∀ j sj, similarity q D j sj → (sj <= sm)%Q.
Proof.
  intros HD Hq Hk (sims & Hsims & Hi) Hs.
  destruct (get_relevant_snippet_selected q D k w sims i s)
    as (m & top & d & docs & Htop & Hm & Hret & Hdrawn); try done.
  apply passes_iff in Hm as (sm & Hsm & _).
  apply Forall2_cons in Hdrawn as [Hd _].
  exists m, sm, d, docs. split_and!; try done.
  - by apply (similarity_lookup _ _ _ _ _ Hsims).
  - intros j sj Hj%(similarity_lookup _ _ _ _ _ Hsims).
    by eapply (top_indices_head_max numpy_ok).
Qed.

(** X7. No better document is left out: under the same conditions every
    document that is not returned is at most as similar to the question
    as every document that is. *)
Theorem get_relevant_snippet_none_better q D k w i s :
  D ≠ [] → Str.blank q = false → (0 < k)%Z →
  similarity q D i s → (0 < s)%Q →
  ∃ idxs docs,
    get_relevant_snippet q D k w = (Ok docs, w)
    ∧ drawn_from D idxs docs
    ∧ ∀ a b sa sb,
        a ∈ idxs → b ∉ idxs →
        similarity q D a sa → similarity q D b sb → (sb <= sa)%Q.
Proof.
  intros HD Hq Hk (sims & Hsims & Hi) Hs.
  destruct (get_relevant_snippet_selected q D k w sims i s)
    as (m & top & d & docs & Htop & Hm & Hret & Hdrawn); try done.
  exists (m :: filter (λ j, passes sims j) top), (d :: docs).
  split_and!; try done.
  assert (m :: filter (λ j, passes sims j) top
          = filter (λ j, passes sims j) (m :: top)) as ->.
  { by rewrite filter_cons, decide_True by (by rewrite Hm). }
  rewrite <- Htop.
  intros a b sa sb Ha Hb Hsa%(similarity_lookup _ _ _ _ _ Hsims)
    Hsb%(similarity_lookup _ _ _ _ _ Hsims).
  apply list_elem_of_filter in Ha as [Hpa Hta].
  apply Is_true_true, passes_iff in Hpa as (sa' & Hsa' & Hpos).
  assert (sa' = sa) as -> by congruence.
  destruct (slice_to_take (reverse (argsort sims)) k) as [n Hn].
  rewrite Hn in Hta, Hb.
  assert (b ∈ reverse (argsort sims)) as Hbin.
  { apply elem_of_reverse, (argsort_elem numpy_ok). by eapply lookup_lt_Some. }
  rewrite <- (take_drop n (reverse (argsort sims))) in Hbin.
  apply elem_of_app in Hbin as [Hbt|Hbd].
  - (* among the top indices, but failing the test *)
    apply Qlt_le_weak. eapply Qle_lt_trans; [|exact Hpos].
    apply Qnot_lt_le. intros Hbpos. apply Hb.
    apply list_elem_of_filter. split; [|done].
    apply Is_true_true, passes_iff. eauto.
  - (* beyond the top indices *)
    pose proof (reverse_argsort_descending sims) as Hsorted.
    rewrite <- (take_drop n (reverse (argsort sims))) in Hsorted.
    by eapply (StronglySorted_app_1_elem_of _ _ _ a b Hsorted).
Qed.

Lemma filter_none {A} (P : A → Prop) `{!∀ x, Decision (P x)} (l : list A) :
  (∀ y, y ∈ l → ¬ P y) → filter P l = [].
Proof.
  induction l as [|x l IH]; intros Hl; [done|].
  rewrite filter_cons, decide_False by (apply Hl; by left).
  apply IH. intros y Hy. apply Hl. by right.
Qed.

(** Filtering a prefix of a list in which the elements that satisfy the
    predicate come first is taking a prefix of the filtered list. *)
Lemma filter_take_prefix_closed {A} (P : A → Prop) `{!∀ x, Decision (P x)}
    (l : list A) n :
  StronglySorted (λ x y, P y → P x) l →
  filter P (take n l) = take n (filter P l).
Proof.
  intros Hsorted. revert n.
  induction Hsorted as [|x l Hl IH Hx]; intros n.
  { by rewrite take_nil, filter_nil, take_nil. }
  destruct n as [|n]; [done|]. simpl.
  rewrite !filter_cons. destruct (decide (P x)) as [HPx|HPx]; simpl.
  { by rewrite IH. }
  rewrite Forall_forall in Hx.
  rewrite (filter_none P l), take_nil.
  - apply filter_none. intros y Hy HPy. apply HPx, (Hx y); [|done].
    by eapply subseteq_take.
  - intros y Hy HPy. by apply HPx, (Hx y).
Qed.

(** X8. How many documents come back: under the same conditions, [k] of them
    or, if fewer documents have a positive score, all of those. *)
Theorem get_relevant_snippet_count q D k w sims i s :
  D ≠ [] → Str.blank q = false → (0 < k)%Z →
  tfidf_cosine_similarity (q :: D) = Ok sims →
  sims !! i = Some s → (0 < s)%Q →
  ∃ docs,
    get_relevant_snippet q D k w = (Ok docs, w)
    ∧ length docs
      = Nat.min (Z.to_nat k)
          (length (filter (λ j, passes sims j) (seq 0 (length D)))).
Proof.
  intros HD Hq Hk Hsims Hi Hs.
  destruct (get_relevant_snippet_selected q D k w sims i s)
    as (m & top & d & docs & Htop & Hm & Hret & Hdrawn); try done.
  exists (d :: docs). split; [done|].
  rewrite (drawn_from_length _ _ _ Hdrawn).
  assert (m :: filter (λ j, passes sims j) top
          = filter (λ j, passes sims j) (m :: top)) as ->.
  { by rewrite filter_cons, decide_True by (by rewrite Hm). }
  rewrite <- Htop, slice_to_nonneg by lia.
  rewrite filter_take_prefix_closed, length_take.
  - f_equal. rewrite reverse_Permutation, (argsort_perm numpy_ok sims).
    by rewrite (similarity_length sklearn_ok _ _ _ Hsims).
  - eapply StronglySorted_weaken; [|apply reverse_argsort_descending].
    intros a b Ha Hb Hab Hpb.
    apply Is_true_true, passes_iff in Hpb as (sb & Hsb & Hpos).
    assert (a < length sims) as [sa Hsa]%lookup_lt_is_Some_2.
    { by apply (argsort_elem numpy_ok), elem_of_reverse. }
    apply Is_true_true, passes_iff. exists sa. split; [done|].
    eapply Qlt_le_trans; [exact Hpos|]. by apply Hab.
Qed.

End with_contracts.

End retriever_more.

(** ** llm_adapter.py: credentials, endpoint and errors *)

Section adapter_more.
Context `{!Requests}.
Implicit Types (self : DeepSeekClient) (w : World) (e : Exception).

Lemma truthy_false_iff s : Str.truthy s = false ↔ s = "".
Proof. by destruct s. Qed.

(** [or_else] gives a non-empty text exactly in the two resolvable cases. *)
Lemma or_else_resolved (a b : option string) k :
  (or_else a b = Some k ∧ k ≠ "")
  ↔ k ≠ "" ∧ (a = Some k ∨ ((a = None ∨ a = Some "") ∧ b = Some k)).
Proof.
  unfold or_else. destruct a as [[|c s]|]; simpl; split.
  - intros [-> Hk]. eauto.
  - intros [Hk [Ha|[_ ->]]]; [by simplify_eq|done].
  - intros [[= <-] Hk]. eauto.
  - intros [Hk [Ha|[[Ha|Ha] _]]]; by simplify_eq.
  - intros [-> Hk]. eauto.
  - intros [Hk [Ha|[_ ->]]]; [by simplify_eq|done].
Qed.

(** A constructor call either builds the client from the resolved key or
    raises [ValueError]; it leaves the world alone. *)
Lemma DeepSeekClient_init_outcome api_key base_url w :
  (∃ k, or_else api_key (environ w !! "DEEPSEEK_API_KEY") = Some k ∧ k ≠ ""
        ∧ DeepSeekClient_init api_key base_url w
          = (Ok (mkDeepSeek k (Str.rstrip_slash base_url)), w))
  ∨ (¬ (∃ k, or_else api_key (environ w !! "DEEPSEEK_API_KEY") = Some k
             ∧ k ≠ "")
     ∧ ∃ msg, DeepSeekClient_init api_key base_url w
              = (Raise (mkException ValueError msg), w)).
Proof.
  unfold DeepSeekClient_init, IO.bind, IO.getenv.
  destruct (or_else api_key (environ w !! "DEEPSEEK_API_KEY")) as [[|c k]|];
    simpl.
  - right. split; [by intros (k & [= <-] & ?)|by eexists].
  - left. by eexists.
  - right. split; [by intros (k & [=] & ?)|by eexists].
Qed.

(** X9. The credential of a [DeepSeekClient] is the explicit [api_key] when
    that is a non-empty text, and otherwise the non-empty value of
    DEEPSEEK_API_KEY; the constructor succeeds exactly in these two cases,
    stores the base URL without trailing slashes and changes nothing in
    the world. *)
Theorem DeepSeekClient_init_resolution api_key base_url w c w' :
  DeepSeekClient_init api_key base_url w = (Ok c, w')
  ↔ w' = w
    ∧ ds_base_url c = Str.rstrip_slash base_url
    ∧ ds_api_key c ≠ ""
    ∧ (api_key = Some (ds_api_key c)
       ∨ ((api_key = None ∨ api_key = Some "")
          ∧ environ w !! "DEEPSEEK_API_KEY" = Some (ds_api_key c))).
Proof.
  destruct (DeepSeekClient_init_outcome api_key base_url w)
    as [(k & Hk & Hne & ->)|(Hnone & msg & ->)].
  - split.
    + intros [= <- <-]. simpl. split_and!; try done.
      by apply (or_else_resolved api_key _ k).
    + intros (-> & Hurl & Hkey & Hres). destruct c as [k' url]. simpl in *.
      assert (or_else api_key (environ w !! "DEEPSEEK_API_KEY") = Some k')
        as Hk' by (by apply or_else_resolved).
      congruence.
  - split; [done|]. intros (_ & _ & Hkey & Hres). exfalso. apply Hnone.
    exists (ds_api_key c). by apply or_else_resolved.
Qed.

(** X10. The constructor fails exactly when neither source gives a non-empty
    key, and then with a [ValueError]. *)
Theorem DeepSeekClient_init_failure api_key base_url w :
  (∃ e w', DeepSeekClient_init api_key base_url w = (Raise e, w'))
  ↔ (api_key = None ∨ api_key = Some "")
    ∧ (environ w !! "DEEPSEEK_API_KEY" = None
       ∨ environ w !! "DEEPSEEK_API_KEY" = Some "").
Proof.
  destruct (DeepSeekClient_init_outcome api_key base_url w)
    as [(k & Hk & Hne & ->)|(Hnone & msg & ->)].
  - split; [by intros (e & w' & ?)|].
    intros [Ha He]. exfalso.
    destruct (proj1 (or_else_resolved api_key _ k) (conj Hk Hne))
      as [_ Hres].
    destruct Ha as [->| ->], He as [He|He], Hres as [?|[_ ?]];
      congruence.
  - split; [|by eauto]. intros _.
    destruct api_key as [[|a k]|];
      destruct (environ w !! "DEEPSEEK_API_KEY") as [[|b k']|] eqn:He;
      try (by eauto);
      exfalso; apply Hnone; eexists; split; simpl; try reflexivity; done.
Qed.

(** *** Trailing slashes of the base URL *)

Lemma rstrip_by_snoc p s c :
  p c = true →
  Str.rstrip_by p (s +:+ String c "") = Str.rstrip_by p s.
Proof.
  intros Hc. induction s as [|a s IH]; simpl.
  - by rewrite Hc.
  - by rewrite IH.
Qed.

Lemma rstrip_by_last p s pre c :
  Str.rstrip_by p s = pre +:+ String c "" → p c = false.
Proof.
  revert pre. induction s as [|a s IH]; intros pre; simpl.
  { by destruct pre. }
  destruct (Str.rstrip_by p s) as [|b r] eqn:Hr.
  - destruct (p a) eqn:Ha; [by destruct pre|].
    destruct pre as [|a' pre]; simpl.
    + by intros [= <-].
    + intros [= _ Hnil]. by destruct pre.
  - destruct pre as [|a' pre]; simpl.
    + intros [=].
    + intros [= -> Hrest]. by apply (IH pre).
Qed.

Lemma rstrip_by_split p s :
  ∃ tail, s = Str.rstrip_by p s +:+ tail ∧ Str.rstrip_by p tail = "".
Proof.
  induction s as [|a s (tail & Hs & Htail)]; simpl.
  { by exists "". }
  destruct (Str.rstrip_by p s) as [|b r] eqn:Hr.
  - destruct (p a) eqn:Ha.
    + exists (String a s). split; [done|]. simpl. by rewrite Hr, Ha.
    + exists tail. split; [|done].
      change (s = tail) in Hs. change (String a s = String a tail).
      congruence.
  - exists tail. split; [|done].
    change (String a s = String a (String b r +:+ tail)). congruence.
Qed.

(** X11. The base URL a client keeps never ends with a slash; it is the given
    URL without its trailing slashes, so that a further trailing slash in
    the argument gives the very same client. *)
Theorem DeepSeekClient_init_base_url api_key base_url w c w' :
  DeepSeekClient_init api_key base_url w = (Ok c, w') →
  (∀ pre, ds_base_url c ≠ pre +:+ "/")
  ∧ (∃ tail, base_url = ds_base_url c +:+ tail ∧ Str.rstrip_slash tail = "")
  ∧ DeepSeekClient_init api_key (base_url +:+ "/") w = (Ok c, w').
Proof.
  intros Hinit.
  destruct (DeepSeekClient_init_outcome api_key base_url w)
    as [(k & Hk & Hne & Hok)|(_ & msg & Hfail)]; [|congruence].
  rewrite Hok in Hinit. injection Hinit as <- <-. simpl. split_and!.
  - intros pre Hpre. by apply rstrip_by_last in Hpre.
  - apply rstrip_by_split.
  - destruct (DeepSeekClient_init_outcome api_key (base_url +:+ "/") w)
      as [(k' & Hk' & _ & ->)|(Hnone & _)].
    + unfold Str.rstrip_slash. rewrite rstrip_by_snoc by done. congruence.
    + exfalso. apply Hnone. eauto.
Qed.

(** *** The errors of [generate] *)

(** X12. [generate] lets no [RequestException] through and changes nothing in
    the world. *)
Theorem DeepSeekClient_generate_errors self system user w e w' :
  DeepSeekClient_generate self system user w = (Raise e, w') →
  w' = w ∧ is_RequestException e = false.
Proof.
  unfold DeepSeekClient_generate, IO.lift, Result.try_except.
  match goal with |- context [match ?body with _ => _ end] =>
    destruct body as [t|e0] end; [done|].
  destruct (is_RequestException e0) eqn:He0; intros [= <- <-]; done.
Qed.

(** X13. A [RequestException] raised by the request itself, by
    [raise_for_status] or by [json] is re-raised as a [RuntimeError] whose
    message carries that of the cause. *)
Theorem DeepSeekClient_generate_wraps self system user w e :
  deepseek_request self system user = Raise e
  ∨ (∃ resp, deepseek_request self system user = Ok resp
             ∧ (raise_for_status resp = Raise e
                ∨ (raise_for_status resp = Ok tt ∧ json resp = Raise e))) →
  is_RequestException e = true →
  DeepSeekClient_generate self system user w
  = (Raise (mkException RuntimeError
              ("Failed to call DeepSeek API: " +:+ exc_str e)), w).
Proof.
  intros Hstep He.
  unfold DeepSeekClient_generate, IO.lift, Result.try_except, Result.bind.
  fold (deepseek_request self system user).
  destruct Hstep as [->|(resp & -> & [->|[-> ->]])]; by rewrite He.
Qed.

(** X14. [generate] returns a text exactly when the request, the status check
    and the decoding all succeed and the body has a first choice whose
    content can be read; the text is that content. *)
Theorem DeepSeekClient_generate_success self system user w t w' :
  DeepSeekClient_generate self system user w = (Ok t, w')
  ↔ w' = w
    ∧ ∃ resp data rest,
        deepseek_request self system user = Ok resp
        ∧ raise_for_status resp = Ok tt
        ∧ json resp = Ok data
        ∧ choices data = Some (Ok t :: rest).
Proof.
  unfold DeepSeekClient_generate, IO.lift, Result.try_except, Result.bind.
  fold (deepseek_request self system user).
  destruct (deepseek_request self system user) as [resp|e0].
  2:{ split; [by destruct (is_RequestException e0)|].
      intros (_ & ? & ? & ? & [=] & _). }
  destruct (raise_for_status resp) as [[]|e1] eqn:Hstatus.
  2:{ split; [by destruct (is_RequestException e1)|].
      intros (_ & ? & ? & ? & [= <-] & ? & _). congruence. }
  destruct (json resp) as [data|e2] eqn:Hjson.
  2:{ split; [by destruct (is_RequestException e2)|].
      intros (_ & ? & ? & ? & [= <-] & _ & ? & _). congruence. }
  destruct (choices data) as [[|[t0|e3] rest]|] eqn:Hchoices; simpl.
  - split; [done|].
    intros (_ & ? & ? & ? & [= <-] & _ & ? & ?). congruence.
  - split.
    + intros [= <- <-]. split; [done|]. by exists resp, data, rest.
    + intros (-> & ? & ? & ? & [= <-] & _ & ? & ?). congruence.
  - split; [by destruct (is_RequestException e3)|].
    intros (_ & ? & ? & ? & [= <-] & _ & ? & ?). congruence.
  - split; [done|].
    intros (_ & ? & ? & ? & [= <-] & _ & ? & ?). congruence.
Qed.

(** *** The placeholder provider's constructor *)

(** X15. [OpenAIClient] resolves its credential in the same order, from its
    own variable OPENAI_API_KEY: a DeepSeek credential in the environment
    does not help. *)
Theorem OpenAIClient_init_resolution api_key base_url w c w' :
  OpenAIClient_init api_key base_url w = (Ok c, w')
  ↔ w' = w
    ∧ oa_base_url c = Str.rstrip_slash base_url
    ∧ oa_api_key c ≠ ""
    ∧ (api_key = Some (oa_api_key c)
       ∨ ((api_key = None ∨ api_key = Some "")
          ∧ environ w !! "OPENAI_API_KEY" = Some (oa_api_key c))).
Proof.
  unfold OpenAIClient_init, IO.bind, IO.getenv, IO.ret, IO.raise.
  destruct (or_else api_key (environ w !! "OPENAI_API_KEY")) as [[|a k]|]
    eqn:Hres; simpl.
  - split; [done|]. intros (_ & _ & Hkey & Hcase).
    assert (or_else api_key (environ w !! "OPENAI_API_KEY")
            = Some (oa_api_key c)) by (by apply or_else_resolved).
    congruence.
  - split.
    + intros [= <- <-]. simpl. split_and!; try done.
      by apply (or_else_resolved api_key _ (String a k)).
    + intros (-> & Hurl & Hkey & Hcase). destruct c as [k' url]. simpl in *.
      assert (or_else api_key (environ w !! "OPENAI_API_KEY") = Some k')
        by (by apply or_else_resolved).
      congruence.
  - split; [done|]. intros (_ & _ & Hkey & Hcase).
    assert (or_else api_key (environ w !! "OPENAI_API_KEY")
            = Some (oa_api_key c)) by (by apply or_else_resolved).
    congruence.
Qed.

End adapter_more.

(** ** xai_pipeline.py: totality, the default provider and the prompt *)

Section pipeline_more.
Context `{!Sklearn, !Numpy, !Requests, !Builtins}.
Implicit Types (q s c : string) (D : list string) (client : LLMClient)
  (w : World).

(** [verbalize] always returns; only the explanation depends on what
    [generate] did. *)
Lemma verbalize_returns client q s c ev r w :
  ∃ text w',
    verbalize client q s c ev r w
    = (Ok {| res_status := status r; res_explanation := text;
             res_evidence := ev; res_review_topic := review_topic r |}, w').
Proof.
  destruct (generate client system_prompt (user_prompt q s c ev r) w)
    as [[t|e] w'] eqn:Hgen.
  - exists t, w'. by apply verbalize_ok.
  - eexists _, _. by apply verbalize_raise.
Qed.

(** With no client supplied, [run_xai] is the retrieval stage followed by
    the construction of the default provider. *)
Lemma run_xai_default q s c D w evl w1 :
  get_relevant_snippet q D 1 w = (Ok evl, w1) →
  let ev := first_or_empty evl in
  let r := reason_mcq q s c ev in
  run_xai q s c D None w
  = match DeepSeekClient_init None deepseek_default_url w1 with
    | (Ok made, w2) => verbalize (deepseek_client made) q s c ev r w2
    | (Raise e, w2) =>
        if is_ValueError e || is_RuntimeError e
        then (Ok (rule_based_result r ev),
              printed w2 ("Warning: LLM client initialization failed: "
                          +:+ exc_str e
                          +:+ ". Using rule-based explanation."))
        else (Raise e, w2)
    end.
Proof.
  intros Hret ev r. unfold run_xai, IO.bind at 1. rewrite Hret.
  fold ev. fold r. unfold IO.bind at 1, IO.try_except, IO.bind at 1.
  destruct (DeepSeekClient_init None deepseek_default_url w1)
    as [[made|e] w2]; simpl; [done|].
  by destruct (is_ValueError e || is_RuntimeError e).
Qed.

(** X16. [run_xai] lets no [Exception] escape.  A computation of the
    model returns or raises an instance of [Exception]; whichever of the
    two the scorer, the constructor of the default provider, the network
    and the [generate] of the client (supplied or not) do, [run_xai]
    returns a result.  (What is raised outside the class [Exception],
    such as [KeyboardInterrupt], is not an outcome of the model and is not
    spoken of.) *)
Theorem run_xai_lets_no_Exception_escape q s c D
    (llm_client : option LLMClient) w :
  ∃ result w', run_xai q s c D llm_client w = (Ok result, w').
Proof.
  destruct (get_relevant_snippet_returns q D 1 w) as (evl & w1 & Hret & _).
  destruct llm_client as [client|].
  - rewrite (run_xai_supplied _ _ _ _ _ _ _ _ Hret).
    destruct (verbalize_returns client q s c (first_or_empty evl)
                (reason_mcq q s c (first_or_empty evl)) w1)
      as (text & w' & ->). eauto.
  - rewrite (run_xai_default _ _ _ _ _ _ _ Hret).
    destruct (DeepSeekClient_init_outcome None deepseek_default_url w1)
      as [(k & _ & _ & ->)|(_ & msg & ->)]; simpl; [|eauto].
    destruct (verbalize_returns
                (deepseek_client (mkDeepSeek k
                   (Str.rstrip_slash deepseek_default_url)))
                q s c (first_or_empty evl)
                (reason_mcq q s c (first_or_empty evl)) w1)
      as (text & w' & ->). eauto.
Qed.

(** Every result is built from the reasoning record for the retrieved
    evidence; only the explanation varies. *)
Lemma run_xai_result_shape q s c D (llm_client : option LLMClient) w result w' :
  run_xai q s c D llm_client w = (Ok result, w') →
  ∃ evl w1,
    get_relevant_snippet q D 1 w = (Ok evl, w1)
    ∧ res_evidence result = first_or_empty evl
    ∧ res_status result = status (reason_mcq q s c (first_or_empty evl))
    ∧ res_review_topic result
      = review_topic (reason_mcq q s c (first_or_empty evl)).
Proof.
  destruct (get_relevant_snippet_returns q D 1 w) as (evl & w1 & Hret & _).
  intros Hrun. exists evl, w1. split; [done|].
  destruct llm_client as [client|].
  - rewrite (run_xai_supplied _ _ _ _ _ _ _ _ Hret) in Hrun.
    destruct (verbalize_returns client q s c (first_or_empty evl)
                (reason_mcq q s c (first_or_empty evl)) w1)
      as (text & w2 & Hverb).
    rewrite Hverb in Hrun. by injection Hrun as <- <-.
  - rewrite (run_xai_default _ _ _ _ _ _ _ Hret) in Hrun.
    destruct (DeepSeekClient_init_outcome None deepseek_default_url w1)
      as [(k & _ & _ & Hinit)|(_ & msg & Hinit)]; rewrite Hinit in Hrun;
      simpl in Hrun.
    + destruct (verbalize_returns
                  (deepseek_client (mkDeepSeek k
                     (Str.rstrip_slash deepseek_default_url)))
                  q s c (first_or_empty evl)
                  (reason_mcq q s c (first_or_empty evl)) w1)
        as (text & w2 & Hverb).
      rewrite Hverb in Hrun. by injection Hrun as <- <-.
    + by injection Hrun as <- <-.
Qed.

(** X17. Status, evidence and review topic of the result do not depend on the
    client, the credential or the network: two runs on the same inputs
    agree on them whatever their clients are, and the evidence is a
    document of the list (the empty text for an empty list). *)
Theorem run_xai_fields q s c D (client1 client2 : option LLMClient) w
    r1 w1 r2 w2 :
  run_xai q s c D client1 w = (Ok r1, w1) →
  run_xai q s c D client2 w = (Ok r2, w2) →
  res_status r1 = res_status r2
  ∧ res_evidence r1 = res_evidence r2
  ∧ res_review_topic r1 = res_review_topic r2
  ∧ ((D = [] ∧ res_evidence r1 = "") ∨ (D ≠ [] ∧ res_evidence r1 ∈ D)).
Proof.
  intros (evl & wa & Hret & Hev1 & Hst1 & Hrt1)%run_xai_result_shape
         (evl' & wb & Hret' & Hev2 & Hst2 & Hrt2)%run_xai_result_shape.
  rewrite Hret in Hret'. injection Hret' as <- <-.
  rewrite Hev1, Hev2, Hst1, Hst2, Hrt1, Hrt2. split_and!; try done.
  by eapply first_or_empty_member.
Qed.

(** X18. With a credential in the environment, supplying no client is the
    same as supplying a [DeepSeekClient] for the default endpoint with
    that credential. *)
Theorem run_xai_default_client q s c D w key :
  environ w !! "DEEPSEEK_API_KEY" = Some key → key ≠ "" →
  run_xai q s c D None w
  = run_xai q s c D
      (Some (deepseek_client (mkDeepSeek key "https://api.deepseek.com"))) w.
Proof.
  intros Henv Hkey.
  destruct (get_relevant_snippet_returns q D 1 w) as (evl & w1 & Hret & Hw1).
  rewrite (run_xai_supplied _ _ _ _ _ _ _ _ Hret).
  rewrite (run_xai_default _ _ _ _ _ _ _ Hret).
  rewrite <- Hw1 in Henv.
  destruct (DeepSeekClient_init_outcome None deepseek_default_url w1)
    as [(k & Hk & _ & ->)|(Hnone & _)].
  - simpl in Hk. rewrite Henv in Hk. by injection Hk as <-.
  - exfalso. apply Hnone. exists key. simpl. by rewrite Henv.
Qed.

(** With a credential in the environment, a run without a client goes
    on with the default provider built from that credential. *)
Lemma run_xai_default_keyed q s c D w key evl w1 :
  environ w !! "DEEPSEEK_API_KEY" = Some key → key ≠ "" →
  get_relevant_snippet q D 1 w = (Ok evl, w1) →
  run_xai q s c D None w
  = verbalize (deepseek_client (mkDeepSeek key "https://api.deepseek.com"))
      q s c (first_or_empty evl) (reason_mcq q s c (first_or_empty evl)) w1.
Proof.
  intros Henv Hkey Hret.
  rewrite (run_xai_default _ _ _ _ _ _ _ Hret).
  destruct (get_relevant_snippet_returns q D 1 w) as (evl' & w1' & Hret' & Hw1).
  rewrite Hret in Hret'. injection Hret' as <- <-. rewrite <- Hw1 in Henv.
  destruct (DeepSeekClient_init_outcome None deepseek_default_url w1)
    as [(k & Hk & _ & ->)|(Hnone & _)].
  - simpl in Hk. rewrite Henv in Hk. by injection Hk as <-.
  - exfalso. apply Hnone. exists key. simpl. by rewrite Henv.
Qed.

(** X19. End to end, transport failure: when the default provider's request,
    its status check or the decoding of its body raises a
    [RequestException], the run returns the rule-based result and prints
    one warning that names the cause. *)
Theorem run_xai_default_request_fails q s c D w key evl w1 e :
  environ w !! "DEEPSEEK_API_KEY" = Some key → key ≠ "" →
  get_relevant_snippet q D 1 w = (Ok evl, w1) →
  let ev := first_or_empty evl in
  default_request q s c ev key = Raise e
  ∨ (∃ resp, default_request q s c ev key = Ok resp
             ∧ (raise_for_status resp = Raise e
                ∨ (raise_for_status resp = Ok tt ∧ json resp = Raise e))) →
  is_RequestException e = true →
  run_xai q s c D None w
  = (Ok (rule_based_result (reason_mcq q s c ev) ev),
     printed w1
       (generation_warning
          (mkException RuntimeError
             ("Failed to call DeepSeek API: " +:+ exc_str e)))).
Proof.
  intros Henv Hkey Hret ev Hstep He.
  rewrite (run_xai_default_keyed _ _ _ _ _ _ _ _ Henv Hkey Hret).
  apply verbalize_raise. simpl.
  unfold DeepSeekClient_generate, IO.lift, Result.try_except, Result.bind.
  unfold default_request, deepseek_request in Hstep. fold ev.
  destruct Hstep as [->|(resp & -> & [->|[-> ->]])]; by rewrite He.
Qed.

(** X20. End to end, a body without choices: when the body decodes and
    the test ["choices" in data and len(data["choices"]) > 0] is false on
    it (no [choices], or an empty list of them), the run returns the
    rule-based result and the warning reports the unexpected structure.
    (A body on which that test raises is another case: there [json] is
    the [TypeError], see [Response].) *)
Theorem run_xai_default_malformed q s c D w key evl w1 resp data :
  environ w !! "DEEPSEEK_API_KEY" = Some key → key ≠ "" →
  get_relevant_snippet q D 1 w = (Ok evl, w1) →
  let ev := first_or_empty evl in
  default_request q s c ev key = Ok resp →
  raise_for_status resp = Ok tt → json resp = Ok data →
  choices data = None ∨ choices data = Some [] →
  run_xai q s c D None w
  = (Ok (rule_based_result (reason_mcq q s c ev) ev),
     printed w1
       (generation_warning
          (mkException ValueError
             ("Unexpected API response structure: " +:+ data_repr data)))).
Proof.
  intros Henv Hkey Hret ev Hreq Hstatus Hjson Hchoices.
  rewrite (run_xai_default_keyed _ _ _ _ _ _ _ _ Henv Hkey Hret).
  apply verbalize_raise. simpl.
  unfold DeepSeekClient_generate, IO.lift, Result.try_except, Result.bind.
  unfold default_request, deepseek_request in Hreq. fold ev.
  rewrite Hreq, Hstatus, Hjson. by destruct Hchoices as [->| ->].
Qed.

(** X21. End to end, success: when the body has a first choice with content
    [t], the explanation is [t] and nothing is printed by the LLM stage. *)
Theorem run_xai_default_answer q s c D w key evl w1 resp data t rest :
  environ w !! "DEEPSEEK_API_KEY" = Some key → key ≠ "" →
  get_relevant_snippet q D 1 w = (Ok evl, w1) →
  let ev := first_or_empty evl in
  default_request q s c ev key = Ok resp →
  raise_for_status resp = Ok tt → json resp = Ok data →
  choices data = Some (Ok t :: rest) →
  run_xai q s c D None w
  = (Ok {| res_status := status (reason_mcq q s c ev);
           res_explanation := t;
           res_evidence := ev;
           res_review_topic := review_topic (reason_mcq q s c ev) |}, w1).
Proof.
  intros Henv Hkey Hret ev Hreq Hstatus Hjson Hchoices.
  rewrite (run_xai_default_keyed _ _ _ _ _ _ _ _ Henv Hkey Hret).
  apply verbalize_ok. simpl.
  unfold DeepSeekClient_generate, IO.lift, Result.try_except, Result.bind.
  unfold default_request, deepseek_request in Hreq. fold ev.
  by rewrite Hreq, Hstatus, Hjson, Hchoices.
Qed.

(** X22. The user prompt carries the question, both answers, the evidence and
    the formatted reasoning record, each verbatim; the formatted record
    carries the [repr] of its three values. *)
Theorem user_prompt_embeds q s c ev (r : ReasoningRecord) :
  Str.contains (user_prompt q s c ev r) ("Question: " +:+ q)
  ∧ Str.contains (user_prompt q s c ev r) ("Student answer: " +:+ s)
  ∧ Str.contains (user_prompt q s c ev r) ("Correct answer: " +:+ c)
  ∧ Str.contains (user_prompt q s c ev r) ("Evidence from lecture: " +:+ ev)
  ∧ Str.contains (user_prompt q s c ev r)
      ("Internal reasoning: " +:+ format_reasoning r)
  ∧ Str.contains (format_reasoning r) (repr_str (status r))
  ∧ Str.contains (format_reasoning r) (repr_str (explanation_hint r))
  ∧ Str.contains (format_reasoning r) (repr_str (review_topic r)).
Proof.
  unfold user_prompt, format_reasoning, Str.contains.
  split_and!.
  - eexists Str.newline, _. by rewrite !append_assoc.
  - eexists (Str.newline +:+ "Question: " +:+ q +:+ Str.newline
             +:+ Str.newline), _.
    by rewrite !append_assoc.
  - eexists (Str.newline +:+ "Question: " +:+ q +:+ Str.newline
             +:+ Str.newline +:+ "Student answer: " +:+ s +:+ Str.newline
             +:+ Str.newline), _.
    by rewrite !append_assoc.
  - eexists (Str.newline +:+ "Question: " +:+ q +:+ Str.newline
             +:+ Str.newline +:+ "Student answer: " +:+ s +:+ Str.newline
             +:+ Str.newline +:+ "Correct answer: " +:+ c +:+ Str.newline
             +:+ Str.newline), _.
    by rewrite !append_assoc.
  - eexists (Str.newline +:+ "Question: " +:+ q +:+ Str.newline
             +:+ Str.newline +:+ "Student answer: " +:+ s +:+ Str.newline
             +:+ Str.newline +:+ "Correct answer: " +:+ c +:+ Str.newline
             +:+ Str.newline +:+ "Evidence from lecture: " +:+ ev
             +:+ Str.newline +:+ Str.newline), _.
    by rewrite !append_assoc.
  - by eexists "{'status': ", _.
  - eexists ("{'status': " +:+ repr_str (status r)
             +:+ ", 'explanation_hint': "), _.
    by rewrite !append_assoc.
  - eexists ("{'status': " +:+ repr_str (status r)
             +:+ ", 'explanation_hint': " +:+ repr_str (explanation_hint r)
             +:+ ", 'review_topic': "), _.
    by rewrite !append_assoc.
Qed.

End pipeline_more.

(** ** app_demo.py: loading the lecture notes *)

Section demo.
Context `{!FileSystem}.
Implicit Types (w : World) (content d : string) (docs : list string).

Lemma lstrip_fixed s :
  Str.truthy (Str.lstrip_by Str.isspace s) = true →
  ∃ a t, Str.lstrip_by Str.isspace s = String a t ∧ Str.isspace a = false.
Proof.
  induction s as [|a s IH]; simpl; [done|].
  destruct (Str.isspace a) eqn:Ha; [done|]. intros _. by exists a, s.
Qed.

Lemma rstrip_idemp s :
  Str.rstrip_by Str.isspace (Str.rstrip_by Str.isspace s)
  = Str.rstrip_by Str.isspace s.
Proof.
  induction s as [|a s IH]; simpl; [done|].
  destruct (Str.rstrip_by Str.isspace s) as [|b r] eqn:Hr.
  - destruct (Str.isspace a) eqn:Ha; simpl; [done|]. by rewrite Ha.
  - simpl in *. by rewrite IH.
Qed.

Lemma rstrip_head a t :
  Str.isspace a = false →
  ∃ t', Str.rstrip_by Str.isspace (String a t) = String a t'.
Proof.
  intros Ha. simpl. destruct (Str.rstrip_by Str.isspace t); rewrite ?Ha; eauto.
Qed.

(** Trimming twice is trimming once. *)
Lemma strip_idemp s : Str.strip (Str.strip s) = Str.strip s.
Proof.
  unfold Str.strip.
  destruct (Str.truthy (Str.lstrip_by Str.isspace s)) eqn:Hl.
  - destruct (lstrip_fixed s Hl) as (a & t & -> & Ha).
    destruct (rstrip_head a t Ha) as [t' Ht']. rewrite Ht'.
    assert (Str.lstrip_by Str.isspace (String a t') = String a t') as ->
      by (simpl; by rewrite Ha).
    rewrite <- Ht'. apply rstrip_idemp.
  - apply truthy_false_iff in Hl. by rewrite Hl.
Qed.

Lemma paragraphs_clean content d :
  d ∈ paragraphs content → d ≠ "" ∧ Str.strip d = d.
Proof.
  unfold paragraphs.
  intros (p & -> & [Hp _]%list_elem_of_filter)%list_elem_of_fmap.
  split; [|apply strip_idemp].
  apply Is_true_true in Hp. by apply truthy_true.
Qed.

Lemma default_docs_clean d :
  d ∈ default_docs → d ≠ "" ∧ Str.strip d = d.
Proof.
  unfold default_docs. rewrite !elem_of_cons, elem_of_nil.
  intros [->|[->|[->|[]]]]; split; (discriminate || by vm_compute).
Qed.

(** What [load_lecture_docs] does, by the outcome of reading the file. *)
Lemma load_lecture_docs_outcome w :
  load_lecture_docs w
  = match read_text "data/sample_lectures.txt" with
    | Ok content =>
        match paragraphs content with
        | [] => (Ok default_docs, w)
        | docs => (Ok docs, w)
        end
    | Raise e =>
        if is_FileNotFoundError e
        then (Ok default_docs,
              printed w
                "Note: sample_lectures.txt not found. Using default sample documents.")
        else (Raise e, w)
    end.
Proof.
  unfold load_lecture_docs, IO.bind, IO.try_except, IO.lift.
  destruct (read_text "data/sample_lectures.txt") as [content|e]; simpl.
  - by destruct (paragraphs content).
  - by destruct (is_FileNotFoundError e).
Qed.

(** X23. Whatever the file holds, a list that [load_lecture_docs] returns is
    never empty, and each of its documents is a non-empty text without
    surrounding whitespace. *)
Theorem load_lecture_docs_clean w docs w' :
  load_lecture_docs w = (Ok docs, w') →
  docs ≠ [] ∧ ∀ d, d ∈ docs → d ≠ "" ∧ Str.strip d = d.
Proof.
  rewrite load_lecture_docs_outcome.
  destruct (read_text "data/sample_lectures.txt") as [content|e].
  - destruct (paragraphs content) as [|p ps] eqn:Hps.
    + intros [= <- <-]. split; [done|]. apply default_docs_clean.
    + intros [= <- <-]. split; [done|]. intros d Hd.
      apply (paragraphs_clean content). by rewrite Hps.
  - destruct (is_FileNotFoundError e); [|done].
    intros [= <- <-]. split; [done|]. apply default_docs_clean.
Qed.

(** Splitting whitespace at blank lines gives whitespace. *)
Lemma split_blank_line_from_blank n :
  ∀ s cur p,
    String.length s ≤ n →
    Str.blank cur = true → Str.blank s = true →
    p ∈ split_blank_line_from cur s → Str.blank p = true.
Proof.
  induction n as [|n IH]; intros s cur p Hlen Hcur Hs Hp.
  { destruct s; [|simpl in Hlen; lia].
    by apply list_elem_of_singleton in Hp as ->. }
  destruct s as [|a [|b rest]]; simpl in Hp, Hs, Hlen.
  - by apply list_elem_of_singleton in Hp as ->.
  - apply list_elem_of_singleton in Hp as ->.
    rewrite blank_app, Hcur. simpl. by rewrite Hs.
  - apply andb_true_iff in Hs as [Ha [Hb Hrest]%andb_true_iff].
    destruct (is_newline a && is_newline b).
    + apply elem_of_cons in Hp as [->|Hp]; [done|].
      apply (IH rest "" p); [lia|done..].
    + apply (IH (String b rest) (cur +:+ String a "") p);
        [simpl; lia| | |done].
      * rewrite blank_app, Hcur. simpl. by rewrite Ha.
      * simpl. by rewrite Hb, Hrest.
Qed.

(** X24. The sample documents stand in when the file is missing (a note is
    printed) and when it holds nothing but whitespace (nothing is
    printed). *)
Theorem load_lecture_docs_fallback w :
  ((∃ e, read_text "data/sample_lectures.txt" = Raise e
         ∧ is_FileNotFoundError e = true) →
   load_lecture_docs w
   = (Ok default_docs,
      printed w
        "Note: sample_lectures.txt not found. Using default sample documents."))
  ∧ ((∃ content, read_text "data/sample_lectures.txt" = Ok content
                 ∧ Str.blank content = true) →
     load_lecture_docs w = (Ok default_docs, w)).
Proof.
  rewrite load_lecture_docs_outcome. split.
  - intros (e & -> & ->). done.
  - intros (content & -> & Hblank).
    assert (paragraphs content = []) as ->; [|done].
    unfold paragraphs. rewrite filter_none; [done|].
    intros p Hp Htruthy. apply Is_true_true in Htruthy.
    rewrite truthy_strip, negb_true_iff in Htruthy.
    assert (Str.blank p = true); [|congruence].
    by apply (split_blank_line_from_blank (String.length content)
                content "" p).
Qed.

(** X25. Only a missing file is forgiven: [load_lecture_docs] raises exactly
    when reading the file raises something other than
    [FileNotFoundError], and it passes that exception on unchanged. *)
Theorem load_lecture_docs_raises w e w' :
  load_lecture_docs w = (Raise e, w')
  ↔ w' = w
    ∧ read_text "data/sample_lectures.txt" = Raise e
    ∧ is_FileNotFoundError e = false.
Proof.
  rewrite load_lecture_docs_outcome.
  destruct (read_text "data/sample_lectures.txt") as [content|e0].
  - split; [by destruct (paragraphs content)|]. by intros (_ & [=] & _).
  - destruct (is_FileNotFoundError e0) eqn:He0.
    + split; [done|]. intros (_ & [= <-] & ?). congruence.
    + split; [by intros [= <- <-]|]. by intros (-> & [= <-] & _).
Qed.

(** *** Reading back a file of paragraphs *)

Lemma contains_tail a s t :
  Str.contains s t → Str.contains (String a s) t.
Proof. intros (pre & post & ->). by exists (String a pre), post. Qed.

Lemma ends_tail a s :
  (∀ pre, String a s ≠ pre +:+ Str.newline) →
  ∀ pre, s ≠ pre +:+ Str.newline.
Proof. intros Hs pre ->. by apply (Hs (String a pre)). Qed.

Lemma is_newline_true a : is_newline a = true → a = ascii_of_nat 10.
Proof. unfold is_newline. by intros ?%Ascii.eqb_eq. Qed.

Lemma append_nil_r s : s +:+ "" = s.
Proof.
  induction s as [|c s IH]; [done|].
  change (String c (s +:+ "") = String c s). by rewrite IH.
Qed.

(** A piece without a blank line that does not end in a newline is cut
    off whole at the separator that follows it. *)
Lemma split_blank_line_from_piece p :
  ∀ cur rest,
    ¬ Str.contains p (Str.newline +:+ Str.newline) →
    (∀ pre, p ≠ pre +:+ Str.newline) →
    split_blank_line_from cur (p +:+ Str.newline +:+ Str.newline +:+ rest)
    = (cur +:+ p) :: split_blank_line_from "" rest.
Proof.
  induction p as [|a p IH]; intros cur rest Hnn Hend.
  { simpl. by rewrite append_nil_r. }
  destruct p as [|b p].
  - (* the last character of the piece *)
    change (split_blank_line_from cur
              (String a (String (ascii_of_nat 10)
                 (String (ascii_of_nat 10) rest)))
            = (cur +:+ String a "") :: split_blank_line_from "" rest).
    simpl. destruct (is_newline a) eqn:Ha.
    { exfalso. apply is_newline_true in Ha as ->. by apply (Hend ""). }
    simpl. done.
  - change (split_blank_line_from cur
              (String a (String b
                 (p +:+ Str.newline +:+ Str.newline +:+ rest)))
            = (cur +:+ String a (String b p))
              :: split_blank_line_from "" rest).
    simpl. destruct (is_newline a && is_newline b) eqn:Hab.
    { exfalso. apply andb_true_iff in Hab as [Ha Hb].
      apply is_newline_true in Ha as ->. apply is_newline_true in Hb as ->.
      apply Hnn. by exists "", p. }
    change (split_blank_line_from (cur +:+ String a "")
              (String b p +:+ Str.newline +:+ Str.newline +:+ rest)
            = (cur +:+ String a (String b p))
              :: split_blank_line_from "" rest).
    rewrite IH.
    + f_equal. by rewrite append_assoc.
    + intros Hc. by apply Hnn, contains_tail.
    + by apply ends_tail with a.
Qed.

(** A last piece without a blank line stays whole. *)
Lemma split_blank_line_from_last p :
  ∀ cur,
    ¬ Str.contains p (Str.newline +:+ Str.newline) →
    split_blank_line_from cur p = [cur +:+ p].
Proof.
  induction p as [|a p IH]; intros cur Hnn.
  { simpl. by rewrite append_nil_r. }
  destruct p as [|b p]; [done|].
  simpl. destruct (is_newline a && is_newline b) eqn:Hab.
  { exfalso. apply andb_true_iff in Hab as [Ha Hb].
    apply is_newline_true in Ha as ->. apply is_newline_true in Hb as ->.
    apply Hnn. by exists "", p. }
  change (split_blank_line_from (cur +:+ String a "") (String b p)
          = [cur +:+ String a (String b p)]).
  rewrite IH.
  - f_equal. by rewrite append_assoc.
  - intros Hc. by apply Hnn, contains_tail.
Qed.

(** A trimmed text does not end in a newline. *)
Lemma stripped_no_final_newline p :
  Str.strip p = p → ∀ pre, p ≠ pre +:+ Str.newline.
Proof.
  intros Hstrip pre Hp. unfold Str.strip in Hstrip. rewrite Hp in Hstrip at 2.
  by apply rstrip_by_last in Hstrip.
Qed.

Lemma split_join ps :
  ps ≠ [] →
  (∀ p, p ∈ ps → Str.strip p = p
                 ∧ ¬ Str.contains p (Str.newline +:+ Str.newline)) →
  split_blank_line (join_blank_line ps) = ps.
Proof.
  unfold split_blank_line.
  induction ps as [|p ps IH]; [done|]. intros _ Hps.
  destruct (Hps p) as [Hstrip Hnn]; [by left|].
  destruct ps as [|p' ps].
  - simpl. by rewrite split_blank_line_from_last.
  - change (split_blank_line_from ""
              (p +:+ Str.newline +:+ Str.newline
               +:+ join_blank_line (p' :: ps)) = p :: p' :: ps).
    rewrite split_blank_line_from_piece;
      [|done|by apply stripped_no_final_newline].
    f_equal. apply IH; [done|]. intros p0 Hp0. apply Hps. by right.
Qed.

(** X26. Round trip: a file that holds non-empty trimmed paragraphs without
    blank lines inside, separated by blank lines, is read back as exactly
    these paragraphs, in order. *)
Theorem load_lecture_docs_reads_back w ps :
  ps ≠ [] →
  (∀ p, p ∈ ps → p ≠ "" ∧ Str.strip p = p
                 ∧ ¬ Str.contains p (Str.newline +:+ Str.newline)) →
  read_text "data/sample_lectures.txt" = Ok (join_blank_line ps) →
  load_lecture_docs w = (Ok ps, w).
Proof.
  intros Hne Hps Hread. rewrite load_lecture_docs_outcome, Hread.
  assert (paragraphs (join_blank_line ps) = ps) as ->;
    [|by destruct ps].
  unfold paragraphs. rewrite split_join;
    [|done|intros p Hp; by destruct (Hps p Hp) as (_ & ? & ?)].
  clear Hne Hread. induction ps as [|p ps IH]; [done|].
  destruct (Hps p) as (Hp & Hstrip & _); [by left|].
  rewrite filter_cons, decide_True.
  - rewrite fmap_cons, Hstrip. f_equal. apply IH.
    intros p0 Hp0. apply Hps. by right.
  - rewrite Hstrip. by apply Is_true_true, truthy_true.
Qed.

End demo.

(** ** app_demo.py and xai_pipeline.py together *)

Section demo_pipeline.
Context `{!FileSystem, !Sklearn, !Numpy, !Requests, !Builtins}.

(** X27. With the documents [load_lecture_docs] returns, the pipeline always
    has evidence: a non-empty document of the loaded list; so a wrong
    answer always gets the review topic that quotes the evidence. *)
Theorem loaded_docs_give_evidence q s c (llm_client : option LLMClient)
    w docs w1 result w2 :
  load_lecture_docs w = (Ok docs, w1) →
  run_xai q s c docs llm_client w1 = (Ok result, w2) →
  res_evidence result ∈ docs
  ∧ res_evidence result ≠ ""
  ∧ (res_status result = "incorrect" →
     res_review_topic result = evidence_review (res_evidence result)).
Proof.
  intros Hload (evl & wr & Hret & Hev & Hst & Hrt)%run_xai_result_shape.
  rewrite load_lecture_docs_outcome in Hload.
  assert (docs ≠ [] ∧ ∀ d, d ∈ docs → d ≠ "") as [Hne Hclean].
  { destruct (read_text "data/sample_lectures.txt") as [content|e].
    - destruct (paragraphs content) as [|p ps] eqn:Hps;
        injection Hload as <- <-; (split; [done|]); intros d Hd.
      + by apply default_docs_clean.
      + apply (paragraphs_clean content). by rewrite Hps.
    - destruct (is_FileNotFoundError e); [|done].
      injection Hload as <- <-. split; [done|]. intros d Hd.
      by apply default_docs_clean. }
  destruct (first_or_empty_member q docs w1 evl wr Hret)
    as [[? _]|[_ Hmember]]; [done|].
  rewrite Hev. split_and!; [done|by apply Hclean|].
  rewrite Hst, Hrt. intros Hstatus. unfold reason_mcq in *.
  destruct (String.eqb _ _); [done|]. cbn [review_topic].
  destruct (first_or_empty evl) eqn:Hfirst; [|done].
  by destruct (Hclean "").
Qed.

End demo_pipeline.

(** ** The further properties on concrete runs *)

Section more_scenarios.

(** X3 on a concrete input. *)
Lemma get_relevant_snippet_within_documents_witness :
  ∃ docs w',
    @get_relevant_snippet Stub.word_overlap Stub.stable_argsort
      Stub.question Stub.lectures 2 Stub.empty_world = (Ok docs, w')
    ∧ (∀ d, d ∈ docs → d ∈ Stub.lectures)
    ∧ ((0 ≤ 2)%Z → length docs ≤ Z.to_nat 2)
    ∧ (Stub.lectures = [] → docs = [])
    ∧ (Stub.lectures ≠ [] → (0 < 2)%Z → docs ≠ []).
Proof.
  apply (@get_relevant_snippet_within_documents
           Stub.word_overlap Stub.stable_argsort).
Defined.

(** X5 on a concrete input. *)
Lemma get_relevant_snippet_warns_iff_witness :
  snd (@get_relevant_snippet Stub.failing_scorer Stub.stable_argsort
         Stub.question Stub.lectures 1 Stub.empty_world)
  ≠ Stub.empty_world.
Proof.
  apply (@get_relevant_snippet_warns_iff
           Stub.failing_scorer Stub.stable_argsort
           failing_scorer_spec stable_argsort_spec).
  split_and!.
  - discriminate.
  - reflexivity.
  - eexists. reflexivity.
Defined.

(** X6 on a concrete input. *)
Lemma get_relevant_snippet_best_first_witness :
  ∃ m sm d docs,
    @get_relevant_snippet Stub.word_overlap Stub.stable_argsort
      Stub.question Stub.lectures 2 Stub.empty_world
    = (Ok (d :: docs), Stub.empty_world)
    ∧ Stub.lectures !! m = Some d
    ∧ @similarity Stub.word_overlap Stub.question Stub.lectures m sm
    ∧ ∀ j sj, @similarity Stub.word_overlap Stub.question Stub.lectures j sj
              → (sj <= sm)%Q.
Proof.
  apply (@get_relevant_snippet_best_first
           Stub.word_overlap Stub.stable_argsort
           word_overlap_spec stable_argsort_spec
           Stub.question Stub.lectures 2 Stub.empty_world 0 1%Q).
  - discriminate.
  - reflexivity.
  - lia.
  - eexists. split; reflexivity.
  - reflexivity.
Defined.

(** X7 on a concrete input. *)
Lemma get_relevant_snippet_none_better_witness :
  ∃ idxs docs,
    @get_relevant_snippet Stub.word_overlap Stub.stable_argsort
      Stub.question Stub.lectures 1 Stub.empty_world
    = (Ok docs, Stub.empty_world)
    ∧ drawn_from Stub.lectures idxs docs
    ∧ ∀ a b sa sb,
        a ∈ idxs → b ∉ idxs →
        @similarity Stub.word_overlap Stub.question Stub.lectures a sa →
        @similarity Stub.word_overlap Stub.question Stub.lectures b sb →
        (sb <= sa)%Q.
Proof.
  apply (@get_relevant_snippet_none_better
           Stub.word_overlap Stub.stable_argsort
           word_overlap_spec stable_argsort_spec
           Stub.question Stub.lectures 1 Stub.empty_world 0 1%Q).
  - discriminate.
  - reflexivity.
  - lia.
  - eexists. split; reflexivity.
  - reflexivity.
Defined.

(** Two of the three sample documents share a word with the question:
    asking for five returns two. *)
Lemma get_relevant_snippet_count_witness :
  ∃ docs,
    @get_relevant_snippet Stub.word_overlap Stub.stable_argsort
      Stub.question Stub.lectures 5 Stub.empty_world
    = (Ok docs, Stub.empty_world)
    ∧ length docs = 2.
Proof.
  apply (@get_relevant_snippet_count
           Stub.word_overlap Stub.stable_argsort
           word_overlap_spec stable_argsort_spec
           Stub.question Stub.lectures 5 Stub.empty_world
           [1%Q; 0%Q; 2%Q] 0 1%Q).
  - discriminate.
  - reflexivity.
  - lia.
  - reflexivity.
  - reflexivity.
  - reflexivity.
Defined.

(** X9 on a concrete input. *)
Lemma DeepSeekClient_init_resolution_witness :
  DeepSeekClient_init (Some "sk-explicit") "https://api.deepseek.com/"
    Double.keyed_world
  = (Ok (mkDeepSeek "sk-explicit" "https://api.deepseek.com"),
     Double.keyed_world)
  ∧ DeepSeekClient_init (Some "") "https://api.deepseek.com"
      Double.keyed_world
    = (Ok Double.sample_client, Double.keyed_world).
Proof.
  split.
  - apply DeepSeekClient_init_resolution. split_and!.
    + reflexivity.
    + reflexivity.
    + discriminate.
    + left. reflexivity.
  - apply DeepSeekClient_init_resolution. split_and!.
    + reflexivity.
    + reflexivity.
    + discriminate.
    + right. split; [by right|]. vm_compute. reflexivity.
Defined.

(** X10 on a concrete input. *)
Lemma DeepSeekClient_init_failure_witness :
  ∃ e w', DeepSeekClient_init (Some "") "https://api.deepseek.com"
            Stub.empty_world = (Raise e, w').
Proof.
  apply DeepSeekClient_init_failure. split.
  - right. reflexivity.
  - left. reflexivity.
Defined.

(** X11 on a concrete input. *)
Lemma DeepSeekClient_init_base_url_witness :
  (∀ pre, "https://api.deepseek.com" ≠ pre +:+ "/")
  ∧ (∃ tail, "https://api.deepseek.com//" = "https://api.deepseek.com" +:+ tail
             ∧ Str.rstrip_slash tail = "")
  ∧ DeepSeekClient_init (Some "sk-test") ("https://api.deepseek.com//" +:+ "/")
      Stub.empty_world
    = (Ok Double.sample_client, Stub.empty_world).
Proof.
  apply (DeepSeekClient_init_base_url (Some "sk-test")
           "https://api.deepseek.com//" Stub.empty_world
           Double.sample_client Stub.empty_world).
  reflexivity.
Defined.

(** X12 on a concrete input. *)
Lemma DeepSeekClient_generate_errors_witness :
  Stub.empty_world = Stub.empty_world
  ∧ is_RequestException
      (mkException RuntimeError
         "Failed to call DeepSeek API: connection refused") = false.
Proof.
  apply (@DeepSeekClient_generate_errors Stub.offline Double.sample_client
           "system" "user" Stub.empty_world).
  reflexivity.
Defined.

(** X13 on a concrete input. *)
Lemma DeepSeekClient_generate_wraps_witness :
  @DeepSeekClient_generate Double.rejecting Double.sample_client
    "system" "user" Stub.empty_world
  = (Raise (mkException RuntimeError
              "Failed to call DeepSeek API: 401 Client Error: Unauthorized"),
     Stub.empty_world).
Proof.
  apply (@DeepSeekClient_generate_wraps Double.rejecting Double.sample_client
           "system" "user" Stub.empty_world
           (mkException RequestException "401 Client Error: Unauthorized")).
  - right. eexists. split; [reflexivity|]. left. reflexivity.
  - reflexivity.
Defined.

(** X14 on a concrete input. *)
Lemma DeepSeekClient_generate_success_witness :
  @DeepSeekClient_generate (Double.answering "Well done")
    Double.sample_client "system" "user" Stub.empty_world
  = (Ok "Well done", Stub.empty_world).
Proof.
  apply (@DeepSeekClient_generate_success (Double.answering "Well done")).
  split; [reflexivity|].
  eexists _, _, _. split_and!; reflexivity.
Defined.

(** X15 on a concrete input. *)
Lemma OpenAIClient_init_resolution_witness :
  OpenAIClient_init (Some "sk-openai") "https://api.openai.com/v1/"
    Double.keyed_world
  = (Ok (mkOpenAI "sk-openai" "https://api.openai.com/v1"),
     Double.keyed_world).
Proof.
  apply OpenAIClient_init_resolution. split_and!.
  - reflexivity.
  - reflexivity.
  - discriminate.
  - left. reflexivity.
Defined.

(** X17 on a concrete input. *)
Lemma run_xai_fields_witness :
  "incorrect" = "incorrect"
  ∧ Stub.week7 = Stub.week7
  ∧ evidence_review Stub.week7 = evidence_review Stub.week7
  ∧ ((Stub.lectures = [] ∧ Stub.week7 = "")
     ∨ (Stub.lectures ≠ [] ∧ Stub.week7 ∈ Stub.lectures)).
Proof.
  apply (@run_xai_fields Stub.word_overlap Stub.stable_argsort Stub.offline
           Stub.quote Stub.question "Berlin" "Paris" Stub.lectures
           (Some (Stub.fixed_client "Great job!")) None Stub.empty_world
           {| res_status := "incorrect"; res_explanation := "Great job!";
              res_evidence := Stub.week7;
              res_review_topic := evidence_review Stub.week7 |}
           Stub.empty_world
           {| res_status := "incorrect"; res_explanation := incorrect_hint;
              res_evidence := Stub.week7;
              res_review_topic := evidence_review Stub.week7 |}
           (printed Stub.empty_world
              "Warning: LLM client initialization failed: DeepSeek API key not provided. Set DEEPSEEK_API_KEY environment variable or pass api_key to constructor.. Using rule-based explanation.")).
  - reflexivity.
  - reflexivity.
Defined.

(** X18 on a concrete input. *)
Lemma run_xai_default_client_witness :
  @run_xai Stub.word_overlap Stub.stable_argsort (Double.answering "Well done")
    Stub.quote Stub.question "Berlin" "Paris" Stub.lectures None
    Double.keyed_world
  = @run_xai Stub.word_overlap Stub.stable_argsort
      (Double.answering "Well done") Stub.quote
      Stub.question "Berlin" "Paris" Stub.lectures
      (Some (@deepseek_client (Double.answering "Well done")
               Double.sample_client))
      Double.keyed_world.
Proof.
  apply (@run_xai_default_client Stub.word_overlap Stub.stable_argsort
           (Double.answering "Well done") Stub.quote).
  - vm_compute. reflexivity.
  - discriminate.
Defined.

(** X19 on a concrete input. *)
Lemma run_xai_default_request_fails_witness :
  @run_xai Stub.word_overlap Stub.stable_argsort Stub.offline Stub.quote
    Stub.question "Berlin" "Paris" Stub.lectures None Double.keyed_world
  = (Ok (rule_based_result
           (reason_mcq Stub.question "Berlin" "Paris" Stub.week7) Stub.week7),
     printed Double.keyed_world
       (generation_warning
          (mkException RuntimeError
             "Failed to call DeepSeek API: connection refused"))).
Proof.
  apply (@run_xai_default_request_fails
           Stub.word_overlap Stub.stable_argsort Stub.offline Stub.quote
           Stub.question "Berlin" "Paris" Stub.lectures Double.keyed_world
           "sk-test" [Stub.week7] Double.keyed_world
           (mkException RequestException "connection refused")).
  - vm_compute. reflexivity.
  - discriminate.
  - reflexivity.
  - left. reflexivity.
  - reflexivity.
Defined.

(** X20 on a concrete input. *)
Lemma run_xai_default_malformed_witness :
  @run_xai Stub.word_overlap Stub.stable_argsort Double.without_choices
    Stub.quote Stub.question "Berlin" "Paris" Stub.lectures None
    Double.keyed_world
  = (Ok (rule_based_result
           (reason_mcq Stub.question "Berlin" "Paris" Stub.week7) Stub.week7),
     printed Double.keyed_world
       (generation_warning
          (mkException ValueError
             "Unexpected API response structure: {'error': 'quota exceeded'}"))).
Proof.
  apply (@run_xai_default_malformed
           Stub.word_overlap Stub.stable_argsort Double.without_choices
           Stub.quote
           Stub.question "Berlin" "Paris" Stub.lectures Double.keyed_world
           "sk-test" [Stub.week7] Double.keyed_world
           {| raise_for_status := Ok tt;
              json := Ok {| choices := None;
                            data_repr := "{'error': 'quota exceeded'}" |} |}
           {| choices := None; data_repr := "{'error': 'quota exceeded'}" |}).
  - vm_compute. reflexivity.
  - discriminate.
  - reflexivity.
  - reflexivity.
  - reflexivity.
  - reflexivity.
  - left. reflexivity.
Defined.

(** X21 on a concrete input. *)
Lemma run_xai_default_answer_witness :
  @run_xai Stub.word_overlap Stub.stable_argsort (Double.answering "Well done")
    Stub.quote Stub.question "Berlin" "Paris" Stub.lectures None
    Double.keyed_world
  = (Ok {| res_status := "incorrect";
           res_explanation := "Well done";
           res_evidence := Stub.week7;
           res_review_topic := evidence_review Stub.week7 |},
     Double.keyed_world).
Proof.
  apply (@run_xai_default_answer
           Stub.word_overlap Stub.stable_argsort (Double.answering "Well done")
           Stub.quote
           Stub.question "Berlin" "Paris" Stub.lectures Double.keyed_world
           "sk-test" [Stub.week7] Double.keyed_world
           {| raise_for_status := Ok tt;
              json := Ok {| choices := Some [Ok "Well done"];
                            data_repr := "{'choices': [...]}" |} |}
           {| choices := Some [Ok "Well done"];
              data_repr := "{'choices': [...]}" |}
           "Well done" []).
  - vm_compute. reflexivity.
  - discriminate.
  - reflexivity.
  - reflexivity.
  - reflexivity.
  - reflexivity.
  - reflexivity.
Defined.

(** X23 on a concrete input. *)
Lemma load_lecture_docs_clean_witness :
  Double.sample_paragraphs ≠ []
  ∧ ∀ d, d ∈ Double.sample_paragraphs → d ≠ "" ∧ Str.strip d = d.
Proof.
  apply (@load_lecture_docs_clean (Double.file_with Double.two_paragraphs)
           Stub.empty_world Double.sample_paragraphs Stub.empty_world).
  reflexivity.
Defined.

(** X24 on a concrete input. *)
Lemma load_lecture_docs_fallback_witness :
  @load_lecture_docs Double.missing_file Stub.empty_world
  = (Ok default_docs,
     printed Stub.empty_world
       "Note: sample_lectures.txt not found. Using default sample documents.")
  ∧ @load_lecture_docs (Double.file_with "   ") Stub.empty_world
    = (Ok default_docs, Stub.empty_world).
Proof.
  split.
  - apply (proj1 (@load_lecture_docs_fallback Double.missing_file
                    Stub.empty_world)).
    eexists. split; reflexivity.
  - apply (proj2 (@load_lecture_docs_fallback (Double.file_with "   ")
                    Stub.empty_world)).
    eexists. split; reflexivity.
Defined.

(** X25 on a concrete input. *)
Lemma load_lecture_docs_raises_witness :
  @load_lecture_docs Double.unreadable_file Stub.empty_world
  = (Raise (mkException (OtherException "PermissionError")
              "[Errno 13] Permission denied: 'data/sample_lectures.txt'"),
     Stub.empty_world).
Proof.
  apply (@load_lecture_docs_raises Double.unreadable_file).
  split_and!; reflexivity.
Defined.

(** X26 on a concrete input. *)
Lemma load_lecture_docs_reads_back_witness :
  @load_lecture_docs
    (Double.file_with (join_blank_line Double.sample_paragraphs))
    Stub.empty_world
  = (Ok Double.sample_paragraphs, Stub.empty_world).
Proof.
  apply (@load_lecture_docs_reads_back
           (Double.file_with (join_blank_line Double.sample_paragraphs))).
  - discriminate.
  - intros p Hp. unfold Double.sample_paragraphs in Hp.
    rewrite !elem_of_cons, elem_of_nil in Hp.
    destruct Hp as [->|[->|[]]]; (split_and!; [discriminate|reflexivity|]);
      intros (pre & post & Hpre);
      repeat (destruct pre as [|? pre];
              [discriminate Hpre|injection Hpre as _ Hpre]);
      destruct pre; discriminate Hpre.
  - reflexivity.
Defined.

(** X27 on a concrete input. *)
Lemma loaded_docs_give_evidence_witness :
  ∃ evidence,
    evidence ∈ default_docs
    ∧ evidence ≠ ""
    ∧ ("incorrect" = "incorrect" →
       evidence_review evidence = evidence_review evidence).
Proof.
  let ev := eval vm_compute in (nth 2 default_docs "") in
  exists ev;
  apply (@loaded_docs_give_evidence
           Double.missing_file Stub.word_overlap Stub.stable_argsort
           Stub.offline Stub.quote
           Stub.question "Berlin" "Paris" None
           Stub.empty_world default_docs
           (printed Stub.empty_world
              "Note: sample_lectures.txt not found. Using default sample documents.")
           {| res_status := "incorrect"; res_explanation := incorrect_hint;
              res_evidence := ev;
              res_review_topic := evidence_review ev |}
           (printed
              (printed Stub.empty_world
                 "Note: sample_lectures.txt not found. Using default sample documents.")
              "Warning: LLM client initialization failed: DeepSeek API key not provided. Set DEEPSEEK_API_KEY environment variable or pass api_key to constructor.. Using rule-based explanation.")).
  - reflexivity.
  - vm_compute. reflexivity.
Defined.

End more_scenarios.
